(** * EngageNinja messaging providers: resolver, adapters and webhook parsing

    A shallow embedding of
      backend/src/services/messaging/providerFactory.js
      backend/src/services/messaging/providers/TwilioSmsProvider.js
      backend/src/services/messaging/providers/TwilioWhatsAppProvider.js
      backend/src/services/messaging/providers/SESEmailProvider.js
      backend/src/services/messaging/providers/DemoProvider.js
    JavaScript values are a small inductive type, exceptions and the
    process state (clock, environment, database tables, effect trace) are
    threaded by a state-and-exception monad, and everything the code gets
    from Node or from a carrier library is a field of [Platform]. *)

From Stdlib Require Import String Ascii ZArith List Bool Lia.
From Stdlib Require Import DecimalString.
From Stdlib Require Strings.Byte.
Import ListNotations.

Set Warnings "-register-all".

Local Open Scope list_scope.
Local Open Scope string_scope.

(* ================================================================== *)
(** ** JavaScript values *)
(* ================================================================== *)

(** Numbers are the integer-valued ones (ids, epoch milliseconds); a
    [VDate] carries its time value, [None] being Invalid Date. Objects
    are association lists in insertion order, the first binding of a key
    being the visible one. *)
Inductive value : Type :=
| VUndefined
| VNull
| VBool (b : bool)
| VNum (n : Z)
| VStr (s : string)
| VDate (t : option Z)
| VArr (items : list value)
| VObj (fields : list (string * value)).

Inductive exn : Type :=
| Error (message : string)        (* new Error(message) *)
| TypeError (message : string)    (* raised by the engine *)
| SyntaxError (message : string)  (* JSON.parse *)
| Rejected (message : string).    (* a library call that failed *)

Definition error_message (e : exn) : string :=
  match e with
  | Error m | TypeError m | SyntaxError m | Rejected m => m
  end.

Inductive outcome (A : Type) : Type :=
| Return (a : A)
| Throw (e : exn).
Arguments Return {A} a.
Arguments Throw {A} e.

Module JS.

(** ToBoolean. *)
Definition truthy (v : value) : bool :=
  match v with
  | VUndefined | VNull => false
  | VBool b => b
  | VNum n => negb (n =? 0)%Z
  | VStr s => negb (s =? "")
  | VDate _ | VArr _ | VObj _ => true
  end.

(** [a || b] on already evaluated operands. *)
Definition or (a b : value) : value := if truthy a then a else b.

Fixpoint assoc (k : string) (fs : list (string * value)) : option value :=
  match fs with
  | [] => None
  | (k', v) :: rest => if k' =? k then Some v else assoc k rest
  end.

Definition nullish (v : value) : bool :=
  match v with
  | VUndefined | VNull => true
  | _ => false
  end.

(** [v.k] for a [v] that is neither undefined nor null: own fields of an
    object, undefined for anything else (none of the keys read by this
    code is a built-in property of a primitive, an array or a Date). *)
Definition prop (v : value) (k : string) : value :=
  match v with
  | VObj fs => match assoc k fs with Some x => x | None => VUndefined end
  | _ => VUndefined
  end.

(** [v.k = x] on an object literal under construction. *)
Fixpoint set_field (k : string) (x : value) (fs : list (string * value))
  : list (string * value) :=
  match fs with
  | [] => [(k, x)]
  | (k', v) :: rest =>
      if k' =? k then (k', x) :: rest else (k', v) :: set_field k x rest
  end.

Definition has_field (v : value) (k : string) : bool :=
  match v with
  | VObj fs => match assoc k fs with Some _ => true | None => false end
  | _ => false
  end.

(** [delete v.k], used to compare results field by field. *)
Fixpoint remove_field (k : string) (fs : list (string * value))
  : list (string * value) :=
  match fs with
  | [] => []
  | (k', v) :: rest =>
      if k' =? k then remove_field k rest else (k', v) :: remove_field k rest
  end.

Definition without (k : string) (v : value) : value :=
  match v with
  | VObj fs => VObj (remove_field k fs)
  | _ => v
  end.

Definition string_of_Z (n : Z) : string :=
  NilZero.string_of_int (Z.to_int n).

Definition type_name (v : value) : string :=
  match v with
  | VNull => "null"
  | _ => "undefined"
  end.

(** Strict equality with a string literal, as in [x === 'sms'] and in
    the [case] labels of a [switch]. *)
Definition is_str (v : value) (lit : string) : bool :=
  match v with
  | VStr s => s =? lit
  | _ => false
  end.

End JS.

(* ================================================================== *)
(** ** What the code gets from Node and from the carrier libraries *)
(* ================================================================== *)

Record Platform : Type := {
  (** [JSON.parse] of a string. *)
  JSON_parse : string -> outcome value;
  (** [crypto.createHash('sha256').update(s).digest()]. *)
  sha256 : string -> list Byte.byte;
  (** [createDecipheriv('aes-192-cbc', key, iv)] followed by
      [update(data, 'hex', 'utf8') + final('utf8')]: the plaintext, or
      what the first of the three calls to fail throws. *)
  aes_192_cbc_decipher :
    list Byte.byte -> list Byte.byte -> value -> outcome string;
  (** [twilio(accountSid, authToken)]: the client constructor. *)
  twilio_client : value -> value -> outcome unit;
  (** [twilio.validateRequest(authToken, signature, url, params)]. *)
  twilio_validateRequest : value -> value -> value -> value -> outcome bool;
  (** [client.messages.create(payload)], awaited, for the client built
      from the given account sid and token. *)
  twilio_messages_create : value -> value -> value -> outcome value;
  (** [new AWS.SES(options)]. *)
  aws_ses_client : value -> outcome unit;
  (** [ses.sendEmail(params).promise()], awaited, given the options the
      client was built from. *)
  aws_ses_sendEmail : value -> value -> outcome value;
  (** [Date.parse] on a string; [None] is NaN. *)
  Date_parse : string -> option Z;
  (** [Date.prototype.toISOString] and [toString] of a valid date. *)
  Date_toISOString : Z -> string;
  Date_toString : Z -> string
}.

(* ================================================================== *)
(** ** Process state and the monad of effects *)
(* ================================================================== *)

(** Rows of the three tables the code reads or could write. *)
Record tenant_row : Type := {
  tenant_id : string;
  is_demo : value                       (* BOOLEAN: 0, 1 or NULL *)
}.

Record credential_row : Type := {
  cred_tenant_id : string;
  cred_channel : string;
  provider : string;                    (* TEXT NOT NULL *)
  credentials_json_encrypted : value;   (* TEXT: a string or NULL *)
  provider_config_json : value          (* TEXT: a string or NULL *)
}.

(** message_provider_mappings (migration 017): the Mapping Ledger. *)
Record mapping_row : Type := {
  map_message_id : value;
  map_channel : string;
  map_provider : string;
  map_provider_message_id : value
}.

Inductive provider_class : Type :=
| TwilioSmsProvider
| TwilioWhatsAppProvider
| SESEmailProvider
| DemoProvider.

(** What a run does that an observer outside the function can see, in
    program order. *)
Inductive event : Type :=
| EvQueryTenant (tenantId : string)
| EvQueryCredentials (tenantId channel : string)
| EvDecipher (data : value)
| EvConstruct (cls : provider_class) (credentials : value)
| EvCarrierCall (api : string) (payload : value)
| EvLog (line : string) (data : value).

Record World : Type := {
  clock : Z;                            (* Date.now() *)
  env : list (string * string);         (* process.env *)
  tenants : list tenant_row;
  tenant_channel_credentials_v2 : list credential_row;
  ledger : list mapping_row;
  trace : list event
}.

(** A computation runs in a world and ends by returning or by throwing.
    For an async function the rejection of its promise is the [Throw],
    and an awaited call that rejects throws at the await. *)
Definition M (A : Type) : Type := World -> outcome A * World.

Definition ret {A} (a : A) : M A := fun w => (Return a, w).

Definition throw {A} (e : exn) : M A := fun w => (Throw e, w).

Definition bind {A B} (m : M A) (k : A -> M B) : M B :=
  fun w =>
    match m w with
    | (Return a, w') => k a w'
    | (Throw e, w') => (Throw e, w')
    end.

(** [try { body } catch (error) { handler }]. *)
Definition try_catch {A} (body : M A) (handler : exn -> M A) : M A :=
  fun w =>
    match body w with
    | (Return a, w') => (Return a, w')
    | (Throw e, w') => handler e w'
    end.

Declare Scope js_scope.
Delimit Scope js_scope with js.
Notation "x <- m ;; k" := (bind m (fun x => k))
  (at level 61, m at next level, right associativity) : js_scope.
Notation "m ;;; k" := (bind m (fun _ => k))
  (at level 61, right associativity) : js_scope.
Local Open Scope js_scope.

Definition emit (e : event) : M unit :=
  fun w =>
    (Return tt,
     {| clock := clock w; env := env w; tenants := tenants w;
        tenant_channel_credentials_v2 := tenant_channel_credentials_v2 w;
        ledger := ledger w; trace := (trace w ++ [e])%list |}).

(** [Date.now()] and the time value of [new Date()]. *)
Definition Date_now : M Z := fun w => (Return (clock w), w).

Fixpoint env_lookup (k : string) (e : list (string * string)) : option string :=
  match e with
  | [] => None
  | (k', v) :: rest => if k' =? k then Some v else env_lookup k rest
  end.

(** [process.env.NAME]. *)
Definition process_env (name : string) : M value :=
  fun w =>
    (Return (match env_lookup name (env w) with
             | Some s => VStr s
             | None => VUndefined
             end), w).

Definition lift_outcome {A} (o : outcome A) : M A :=
  match o with
  | Return a => ret a
  | Throw e => throw e
  end.

(** [v.k] as an expression: a TypeError on undefined and null. *)
Definition get (v : value) (k : string) : M value :=
  if JS.nullish v
  then throw (TypeError ("Cannot read properties of " ++ JS.type_name v
                         ++ " (reading '" ++ k ++ "')"))
  else ret (JS.prop v k).

(** [v?.k]. *)
Definition get_opt (v : value) (k : string) : value :=
  if JS.nullish v then VUndefined else JS.prop v k.

(** [const { k, ... } = v]: the check that [v] can be destructured; the
    fields are then read with [JS.prop]. *)
Definition destructure (v : value) (first_key name : string) : M unit :=
  if JS.nullish v
  then throw (TypeError ("Cannot destructure property '" ++ first_key
                         ++ "' of '" ++ name ++ "' as it is "
                         ++ JS.type_name v ++ "."))
  else ret tt.

(** [db.prepare('SELECT id, is_demo FROM tenants WHERE id = ?').get(id)]. *)
Definition select_tenant (id : string) : M (option tenant_row) :=
  emit (EvQueryTenant id) ;;;
  fun w => (Return (find (fun r => tenant_id r =? id) (tenants w)), w).

(** The SELECT on tenant_channel_credentials_v2 by tenant and channel. *)
Definition select_credentials (id channel : string)
  : M (option credential_row) :=
  emit (EvQueryCredentials id channel) ;;;
  fun w =>
    (Return (find (fun r => (cred_tenant_id r =? id)
                            && (cred_channel r =? channel))
                  (tenant_channel_credentials_v2 w)), w).

(** An adapter instance: the fields the MessagingProvider constructor
    stores on [this]. The Twilio and SES clients are determined by
    [this_credentials]. No method assigns to a field after construction,
    so an instance is an immutable record. *)
Record Provider : Type := {
  class_of : provider_class;
  this_tenantId : string;
  this_channel : string;
  this_credentials : value;
  this_config : value
}.

(** The two helpers of the base class ../MessagingProvider.js that the
    adapters call for a result; the file is not among the sources, so
    they are parameters of the development. *)
Record MessagingProvider : Type := {
  (** [this.normalizeStatus(status)]. *)
  normalizeStatus : value -> outcome value;
  (** [this.hasRequiredCredentials(keys)], given [this.credentials]. *)
  hasRequiredCredentials : value -> list string -> outcome bool
}.

Section Providers.

Variable rt : Platform.
Variable base : MessagingProvider.

(** ToString, as used by template literals and by [JSON.parse] and
    [new Date] on a non-string argument. *)
Fixpoint to_js_string (v : value) : string :=
  match v with
  | VUndefined => "undefined"
  | VNull => "null"
  | VBool true => "true"
  | VBool false => "false"
  | VNum n => JS.string_of_Z n
  | VStr s => s
  | VDate (Some t) => Date_toString rt t
  | VDate None => "Invalid Date"
  | VArr items =>
      (fix join (l : list value) : string :=
         match l with
         | [] => ""
         | x :: rest =>
             (if JS.nullish x then "" else to_js_string x)
             ++ match rest with [] => "" | _ => "," ++ join rest end
         end) items
  | VObj _ => "[object Object]"
  end.

(** [new Date(v)] for one argument: the time value, clipped. *)
Definition time_clip (n : Z) : option Z :=
  if (Z.abs n <=? 8640000000000000)%Z then Some n else None.

Definition new_Date (v : value) : value :=
  match v with
  | VDate t => VDate t
  | VUndefined => VDate None
  | VNull => VDate (Some 0%Z)
  | VBool b => VDate (Some (if b then 1 else 0)%Z)
  | VNum n => VDate (time_clip n)
  | VStr s => VDate (Date_parse rt s)
  | VArr _ | VObj _ => VDate (Date_parse rt (to_js_string v))
  end.

(** [JSON.parse(v)]: the argument is converted to a string first. *)
Definition JSON_parse_value (v : value) : M value :=
  lift_outcome (JSON_parse rt (to_js_string v)).

(** Modelled from the spec: logError of the absent base class
    MessagingProvider. Section 7 has failures logged and discarded, so
    it writes one line and returns. *)
Definition logError (context : string) (error : exn) (extra : value)
  : M unit :=
  emit (EvLog (context ++ ": " ++ error_message error) extra).

(** [console.log(line, data)] and [console.error(line, data)]. *)
Definition console_log (line : string) (data : value) : M unit :=
  emit (EvLog line data).

(** A parameter [config = {}]. *)
Definition default_object (v : value) : value :=
  match v with
  | VUndefined => VObj []
  | _ => v
  end.

(* -------------------------------------------------------------- *)
(** *** Constructors *)
(* -------------------------------------------------------------- *)

(** TwilioSmsProvider's constructor; TwilioWhatsAppProvider declares
    none and inherits it, [c] being the class instantiated. *)
Definition new_TwilioSmsProvider (c : provider_class)
    (tenantId channel : string) (credentials config : value) : M Provider :=
  emit (EvConstruct c credentials) ;;;
  let this := {| class_of := c; this_tenantId := tenantId;
                 this_channel := channel; this_credentials := credentials;
                 this_config := default_object config |} in
  ok <- lift_outcome
          (hasRequiredCredentials base credentials ["accountSid"; "authToken"]) ;;
  if negb ok
  then throw (Error
    "Twilio SMS: Missing required credentials (accountSid, authToken)")
  else
    accountSid <- get credentials "accountSid" ;;
    authToken <- get credentials "authToken" ;;
    lift_outcome (twilio_client rt accountSid authToken) ;;;
    ret this.

Definition ses_options (credentials : value) : M value :=
  region <- get credentials "region" ;;
  accessKeyId <- get credentials "accessKeyId" ;;
  secretAccessKey <- get credentials "secretAccessKey" ;;
  ret (VObj [("region", region); ("accessKeyId", accessKeyId);
             ("secretAccessKey", secretAccessKey)]).

Definition new_SESEmailProvider
    (tenantId channel : string) (credentials config : value) : M Provider :=
  emit (EvConstruct SESEmailProvider credentials) ;;;
  let this := {| class_of := SESEmailProvider; this_tenantId := tenantId;
                 this_channel := channel; this_credentials := credentials;
                 this_config := default_object config |} in
  ok <- lift_outcome
          (hasRequiredCredentials base credentials
             ["accessKeyId"; "secretAccessKey"; "region"]) ;;
  if negb ok
  then throw (Error
    "AWS SES: Missing required credentials (accessKeyId, secretAccessKey, region)")
  else
    options <- ses_options credentials ;;
    lift_outcome (aws_ses_client rt options) ;;;
    ret this.

(** [super(tenantId, channel, {}, config)]: the credentials passed in
    are dropped. *)
Definition new_DemoProvider
    (tenantId channel : string) (credentials config : value) : M Provider :=
  emit (EvConstruct DemoProvider (VObj [])) ;;;
  ret {| class_of := DemoProvider; this_tenantId := tenantId;
         this_channel := channel; this_credentials := VObj [];
         this_config := default_object config |}.

(* -------------------------------------------------------------- *)
(** *** providerFactory.js *)
(* -------------------------------------------------------------- *)

Definition default_encryption_key : string :=
  "default-dev-key-change-in-production".

(** The key and the IV of [decryptCredentials]. *)
Definition derive_key (encryptionKey : string) : list Byte.byte :=
  firstn 24 (sha256 rt encryptionKey).

Definition zero_iv : list Byte.byte := repeat Byte.x00 16.

Definition decryptCredentials (encryptedData : value) : M value :=
  if negb (JS.truthy encryptedData) then ret VNull
  else
    e <- process_env "ENCRYPTION_KEY" ;;
    let encryptionKey := JS.or e (VStr default_encryption_key) in
    let key := derive_key (to_js_string encryptionKey) in
    let iv := zero_iv in
    try_catch
      (emit (EvDecipher encryptedData) ;;;
       decrypted <- lift_outcome (aes_192_cbc_decipher rt key iv encryptedData) ;;
       JSON_parse_value (VStr decrypted))
      (fun error =>
         console_log "Failed to decrypt credentials:"
                     (VStr (error_message error)) ;;;
         throw (Error "Invalid credentials - decryption failed")).

Definition getProvider (tenantId channel : string) : M Provider :=
  (* 1. Fetch tenant info *)
  tenant <- select_tenant tenantId ;;
  match tenant with
  | None => throw (Error ("Tenant not found: " ++ tenantId))
  | Some tenant =>
    (* 2. If demo tenant, return demo provider *)
    if JS.truthy (is_demo tenant)
    then new_DemoProvider tenantId channel VUndefined VUndefined
    else
      (* 3. Fetch channel credentials *)
      creds <- select_credentials tenantId channel ;;
      match creds with
      | None =>
          throw (Error ("No provider configured for tenant " ++ tenantId
                        ++ ", channel " ++ channel))
      | Some creds =>
        (* 4. Decrypt credentials *)
        decrypted <- decryptCredentials (credentials_json_encrypted creds) ;;
        config <- (if JS.truthy (provider_config_json creds)
                   then JSON_parse_value (provider_config_json creds)
                   else ret (VObj [])) ;;
        (* 5. Instantiate appropriate provider *)
        if provider creds =? "twilio" then
          if channel =? "sms"
          then new_TwilioSmsProvider TwilioSmsProvider
                 tenantId channel decrypted config
          else if channel =? "whatsapp"
          then new_TwilioSmsProvider TwilioWhatsAppProvider
                 tenantId channel decrypted config
          else throw (Error ("Twilio does not support channel: " ++ channel))
        else if provider creds =? "aws_ses" then
          if channel =? "email"
          then new_SESEmailProvider tenantId channel decrypted config
          else throw (Error ("AWS SES does not support channel: " ++ channel))
        else throw (Error ("Unknown provider: " ++ provider creds))
      end
  end.

(* -------------------------------------------------------------- *)
(** *** TwilioSmsProvider.js *)
(* -------------------------------------------------------------- *)

(** [await this.client.messages.create(payload)]. *)
Definition client_messages_create (this : Provider) (payload : value)
  : M value :=
  emit (EvCarrierCall "twilio.messages.create" payload) ;;;
  lift_outcome
    (twilio_messages_create rt
       (JS.prop (this_credentials this) "accountSid")
       (JS.prop (this_credentials this) "authToken") payload).

Definition TwilioSmsProvider_send (this : Provider) (message : value)
  : M value :=
  try_catch
    (destructure message "phone_number" "message" ;;;
     let phone_number := JS.prop message "phone_number" in
     let content := JS.prop message "content" in
     let messageId := JS.prop message "id" in
     let from_number := JS.prop message "from_number" in
     (* Get sender phone number *)
     fromNumber <- (if JS.truthy from_number then ret from_number
                    else get (this_config this) "phone_number") ;;
     if negb (JS.truthy fromNumber)
     then throw (Error "No phone number configured for tenant")
     else
     (* Validate recipient *)
     if negb (JS.truthy phone_number)
     then throw (Error "Recipient phone number missing")
     else
       (* Send via Twilio *)
       configured <- get (this_config this) "messaging_service_sid" ;;
       messagingServiceSid <-
         (if JS.truthy configured then ret configured
          else e <- process_env "TWILIO_MESSAGING_SERVICE_SID" ;;
               ret (JS.or e VNull)) ;;
       let payload := [("to", phone_number); ("body", content)] in
       payload <-
         (if JS.truthy messagingServiceSid
          then ret (JS.set_field "messagingServiceSid" messagingServiceSid payload)
          else if JS.truthy fromNumber
          then ret (JS.set_field "from" fromNumber payload)
          else throw (Error
            "No messaging service sid or phone number configured for tenant")) ;;
       console_log "[TwilioSmsProvider] sending message payload" (VObj payload) ;;;
       result <- client_messages_create this (VObj payload) ;;
       sid <- get result "sid" ;;
       ret (VObj [("success", VBool true);
                  ("provider_message_id", sid);
                  ("status", VStr "sent");
                  ("provider", VStr "twilio")]))
    (fun error =>
       phone_number <- get message "phone_number" ;;
       logError "SMS send" error (VObj [("phone_number", phone_number)]) ;;;
       ret (VObj [("success", VBool false);
                  ("error", VStr (error_message error));
                  ("provider", VStr "twilio")])).

Definition verifyWebhookSignature (this : Provider) (body signature : value)
  : M bool :=
  try_catch
    (url <- get (this_config this) "webhook_url" ;;
     let webhookUrl := JS.or url (VStr "") in
     authToken <- get (this_credentials this) "authToken" ;;
     lift_outcome
       (twilio_validateRequest rt authToken signature webhookUrl body))
    (fun error =>
       console_log "Twilio signature verification failed:"
                   (VStr (error_message error)) ;;;
       ret false).

Definition TwilioSmsProvider_parseWebhook (this : Provider)
    (body signature : value) : M value :=
  try_catch
    ((* Verify webhook signature *)
     ok <- verifyWebhookSignature this body signature ;;
     if negb ok then throw (Error "Invalid webhook signature")
     else
       (* Extract message ID and status *)
       messageId <- get body "MessageSid" ;;
       status <- get body "MessageStatus" ;;
       if negb (JS.truthy messageId)
       then throw (Error "MessageSid missing from webhook")
       else
         normalized <- lift_outcome (normalizeStatus base status) ;;
         now <- Date_now ;;
         ret (VObj [("provider_message_id", messageId);
                    ("status", normalized);
                    ("timestamp", VDate (Some now));
                    ("raw", body)]))
    (fun error =>
       logError "Webhook parsing" error VUndefined ;;;
       ret (VObj [("error", VStr (error_message error));
                  ("status", VStr "unknown")])).

(* -------------------------------------------------------------- *)
(** *** TwilioWhatsAppProvider.js *)
(* -------------------------------------------------------------- *)

Definition TwilioWhatsAppProvider_send (this : Provider) (message : value)
  : M value :=
  try_catch
    (destructure message "phone_number" "message" ;;;
     let phone_number := JS.prop message "phone_number" in
     let content := JS.prop message "content" in
     let messageId := JS.prop message "id" in
     let from_number := JS.prop message "from_number" in
     (* Get sender WhatsApp Business Account number *)
     fromNumber <- (if JS.truthy from_number then ret from_number
                    else get (this_config this) "whatsapp_number") ;;
     if negb (JS.truthy fromNumber)
     then throw (Error
       "No WhatsApp Business Account number configured for tenant")
     else
     (* Validate recipient has WhatsApp *)
     if negb (JS.truthy phone_number)
     then throw (Error "Recipient phone number missing")
     else
       result <- client_messages_create this
         (VObj [("from", VStr ("whatsapp:" ++ to_js_string fromNumber));
                ("to", VStr ("whatsapp:" ++ to_js_string phone_number));
                ("body", content)]) ;;
       sid <- get result "sid" ;;
       ret (VObj [("success", VBool true);
                  ("provider_message_id", sid);
                  ("status", VStr "sent");
                  ("provider", VStr "twilio")]))
    (fun error =>
       phone_number <- get message "phone_number" ;;
       logError "WhatsApp send" error (VObj [("phone_number", phone_number)]) ;;;
       ret (VObj [("success", VBool false);
                  ("error", VStr (error_message error));
                  ("provider", VStr "twilio")])).

Definition TwilioWhatsAppProvider_parseWebhook (this : Provider)
    (body signature : value) : M value :=
  (* Reuse parent's signature verification *)
  parent <- TwilioSmsProvider_parseWebhook this body signature ;;
  error <- get parent "error" ;;
  if JS.truthy error then ret parent else ret parent.

(* -------------------------------------------------------------- *)
(** *** SESEmailProvider.js *)
(* -------------------------------------------------------------- *)

(** [await this.ses.sendEmail(params).promise()]. *)
Definition ses_sendEmail (this : Provider) (params : value) : M value :=
  emit (EvCarrierCall "ses.sendEmail" params) ;;;
  lift_outcome
    (aws_ses_sendEmail rt
       (VObj [("region", JS.prop (this_credentials this) "region");
              ("accessKeyId", JS.prop (this_credentials this) "accessKeyId");
              ("secretAccessKey",
               JS.prop (this_credentials this) "secretAccessKey")])
       params).

Definition utf8 (data : value) : value :=
  VObj [("Data", data); ("Charset", VStr "UTF-8")].

Definition SESEmailProvider_send (this : Provider) (message : value)
  : M value :=
  try_catch
    (destructure message "to_email" "message" ;;;
     let to_email := JS.prop message "to_email" in
     let subject := JS.prop message "subject" in
     let html_body := JS.prop message "html_body" in
     let text_body := JS.prop message "text_body" in
     let from_email := JS.prop message "from_email" in
     let messageId := JS.prop message "id" in
     (* Validate inputs *)
     if negb (JS.truthy to_email) || negb (JS.truthy subject)
        || negb (JS.truthy html_body) || negb (JS.truthy from_email)
     then throw (Error
       "Missing required email fields: to_email, subject, html_body, from_email")
     else
       (* Send via SES *)
       configuration_set <- get (this_config this) "configuration_set" ;;
       result <- ses_sendEmail this
         (VObj [("Source", from_email);
                ("Destination", VObj [("ToAddresses", VArr [to_email])]);
                ("Message",
                 VObj [("Subject", utf8 subject);
                       ("Body",
                        VObj [("Html", utf8 html_body);
                              ("Text", if JS.truthy text_body
                                       then utf8 text_body
                                       else VUndefined)])]);
                ("ConfigurationSetName",
                 JS.or configuration_set (VStr "engageninja-email-events"));
                ("Tags",
                 VArr [VObj [("Name", VStr "tenant_id");
                             ("Value", VStr (this_tenantId this))];
                       VObj [("Name", VStr "message_id");
                             ("Value", messageId)]])]) ;;
       id <- get result "MessageId" ;;
       ret (VObj [("success", VBool true);
                  ("provider_message_id", id);
                  ("status", VStr "sent");
                  ("provider", VStr "aws_ses")]))
    (fun error =>
       to_email <- get message "to_email" ;;
       logError "Email send" error (VObj [("to_email", to_email)]) ;;;
       ret (VObj [("success", VBool false);
                  ("error", VStr (error_message error));
                  ("provider", VStr "aws_ses")])).

(** The [switch (eventType)] of parseWebhook, [status] starting as
    'unknown'. *)
Definition ses_event_status (eventType : value) : string :=
  if JS.is_str eventType "Send" then "sent"
  else if JS.is_str eventType "Delivery" then "delivered"
  else if JS.is_str eventType "Bounce" then "failed"
  else if JS.is_str eventType "Complaint" then "failed"
  else if JS.is_str eventType "Open" then "read"
  else if JS.is_str eventType "Click" then "read"
  else "unknown".

(** [body.Type === 'Notification' && body.Message] selects the
    unwrapping; [event] is the body itself otherwise. *)
Definition ses_unwrap (body : value) : M value :=
  type <- get body "Type" ;;
  if JS.is_str type "Notification"
  then
    message <- get body "Message" ;;
    if JS.truthy message then JSON_parse_value message else ret body
  else ret body.

(** [event.delivery?.timestamp || event.bounce?.timestamp ||
     event.complaint?.timestamp || new Date().toISOString()]. *)
Definition ses_timestamp (event : value) : M value :=
  delivery <- get event "delivery" ;;
  if JS.truthy (get_opt delivery "timestamp")
  then ret (get_opt delivery "timestamp")
  else
    bounce <- get event "bounce" ;;
    if JS.truthy (get_opt bounce "timestamp")
    then ret (get_opt bounce "timestamp")
    else
      complaint <- get event "complaint" ;;
      if JS.truthy (get_opt complaint "timestamp")
      then ret (get_opt complaint "timestamp")
      else now <- Date_now ;; ret (VStr (Date_toISOString rt now)).

Definition SESEmailProvider_parseWebhook (this : Provider)
    (body signature : value) : M value :=
  try_catch
    ((* Handle both direct SES notifications and SNS-wrapped ones *)
     event <- ses_unwrap body ;;
     (* Validate structure *)
     mail <- get event "mail" ;;
     valid <- (if negb (JS.truthy mail) then ret false
               else id <- get mail "messageId" ;; ret (JS.truthy id)) ;;
     if negb valid then throw (Error "Invalid SES event structure")
     else
       messageId <- get mail "messageId" ;;
       eventType <- get event "eventType" ;;
       (* Map SES event types to standard statuses *)
       let status := ses_event_status eventType in
       (* Extract timestamp *)
       timestamp <- ses_timestamp event ;;
       normalized <- lift_outcome (normalizeStatus base (VStr status)) ;;
       ret (VObj [("provider_message_id", messageId);
                  ("status", normalized);
                  ("timestamp", new_Date timestamp);
                  ("event_type", eventType);
                  ("raw", event)]))
    (fun error =>
       logError "Webhook parsing" error VUndefined ;;;
       ret (VObj [("error", VStr (error_message error));
                  ("status", VStr "unknown")])).

(* -------------------------------------------------------------- *)
(** *** DemoProvider.js *)
(* -------------------------------------------------------------- *)

Definition generateDemoMessageId (messageId : value) : M string :=
  timestamp <- Date_now ;;
  ret ("demo-" ++ to_js_string messageId ++ "-" ++ JS.string_of_Z timestamp).

Definition DemoProvider_send (this : Provider) (message : value) : M value :=
  try_catch
    (id <- get message "id" ;;
     demoMessageId <- generateDemoMessageId id ;;
     id' <- get message "id" ;;
     console_log ("[Demo] Message sent (simulated): " ++ to_js_string id'
                  ++ " -> " ++ demoMessageId) VUndefined ;;;
     ret (VObj [("success", VBool true);
                ("provider_message_id", VStr demoMessageId);
                ("status", VStr "sent");
                ("provider", VStr "demo");
                ("demo", VBool true)]))
    (fun error =>
       ret (VObj [("success", VBool false);
                  ("error", VStr (error_message error));
                  ("provider", VStr "demo");
                  ("demo", VBool true)])).

Definition DemoProvider_parseWebhook (this : Provider)
    (body signature : value) : M value :=
  try_catch
    (id <- get body "provider_message_id" ;;
     if negb (JS.truthy id)
     then throw (Error "provider_message_id missing from demo webhook")
     else
       id <- get body "provider_message_id" ;;
       status <- get body "status" ;;
       normalized <- lift_outcome (normalizeStatus base status) ;;
       timestamp <- get body "timestamp" ;;
       when <- (if JS.truthy timestamp then ret timestamp
                else now <- Date_now ;; ret (VDate (Some now))) ;;
       ret (VObj [("provider_message_id", id);
                  ("status", normalized);
                  ("timestamp", new_Date when);
                  ("demo", VBool true)]))
    (fun error =>
       console_log "[Demo] Webhook parsing failed:"
                   (VStr (error_message error)) ;;;
       ret (VObj [("error", VStr (error_message error));
                  ("status", VStr "unknown");
                  ("demo", VBool true)])).

(* -------------------------------------------------------------- *)
(** *** Method dispatch on the class of the instance *)
(* -------------------------------------------------------------- *)

Definition send (this : Provider) (message : value) : M value :=
  match class_of this with
  | TwilioSmsProvider => TwilioSmsProvider_send this message
  | TwilioWhatsAppProvider => TwilioWhatsAppProvider_send this message
  | SESEmailProvider => SESEmailProvider_send this message
  | DemoProvider => DemoProvider_send this message
  end.

Definition parseWebhook (this : Provider) (body signature : value)
  : M value :=
  match class_of this with
  | TwilioSmsProvider => TwilioSmsProvider_parseWebhook this body signature
  | TwilioWhatsAppProvider =>
      TwilioWhatsAppProvider_parseWebhook this body signature
  | SESEmailProvider => SESEmailProvider_parseWebhook this body signature
  | DemoProvider => DemoProvider_parseWebhook this body signature
  end.

End Providers.

(* ================================================================== *)
(** ** verify, getStatus, supported channels, getAllProviders *)
(* ================================================================== *)

(** The account-level calls of the carrier libraries, and the one
    comparison of the code whose operand may be a string. *)
Record AccountApi : Type := {
  (** [client.api.accounts(accountSid).fetch()], awaited, for the client
      built from the given account sid and token. *)
  twilio_accounts_fetch : value -> value -> value -> outcome value;
  (** [ses.listVerifiedEmailAddresses().promise()], awaited, given the
      options the client was built from. *)
  aws_ses_listVerifiedEmailAddresses : value -> outcome value;
  (** [ses.getSendQuota().promise()], awaited. *)
  aws_ses_getSendQuota : value -> outcome value;
  (** Whether ToNumber of a string is greater than zero. *)
  string_positive : string -> bool
}.

(** The static [getSupportedChannels()] of each class. *)
Definition getSupportedChannels (c : provider_class) : list string :=
  match c with
  | TwilioSmsProvider => ["sms"; "whatsapp"]
  | TwilioWhatsAppProvider => ["whatsapp"]
  | SESEmailProvider => ["email"]
  | DemoProvider => ["sms"; "whatsapp"; "email"]
  end.

(** [providers[channel] = provider] on the object [getAllProviders]
    builds. *)
Fixpoint set_provider (channel : string) (p : Provider)
    (providers : list (string * Provider)) : list (string * Provider) :=
  match providers with
  | [] => [(channel, p)]
  | (k, x) :: rest =>
      if k =? channel then (k, p) :: rest
      else (k, x) :: set_provider channel p rest
  end.

Fixpoint provider_for (channel : string)
    (providers : list (string * Provider)) : option Provider :=
  match providers with
  | [] => None
  | (k, x) :: rest => if k =? channel then Some x else provider_for channel rest
  end.

Section Accounts.

Variable rt : Platform.
Variable base : MessagingProvider.
Variable api : AccountApi.

(** [v.length] for a [v] that is neither undefined nor null; a
    character of a model string is one code unit. *)
Definition js_length (v : value) : value :=
  match v with
  | VArr items => VNum (Z.of_nat (List.length items))
  | VStr s => VNum (Z.of_nat (String.length s))
  | VObj _ => JS.prop v "length"
  | _ => VUndefined
  end.

(** [v > 0]. *)
Definition js_gt_zero (v : value) : bool :=
  match v with
  | VUndefined | VNull => false
  | VBool b => b
  | VNum n => (0 <? n)%Z
  | VStr s => string_positive api s
  | VDate (Some t) => (0 <? t)%Z
  | VDate None => false
  | VArr _ | VObj _ => string_positive api (to_js_string rt v)
  end.

(** [await this.client.api.accounts(sid).fetch()]. *)
Definition client_accounts_fetch (this : Provider) (sid : value) : M value :=
  emit (EvCarrierCall "twilio.accounts.fetch" sid) ;;;
  lift_outcome
    (twilio_accounts_fetch api
       (JS.prop (this_credentials this) "accountSid")
       (JS.prop (this_credentials this) "authToken") sid).

Definition ses_client_options (this : Provider) : value :=
  VObj [("region", JS.prop (this_credentials this) "region");
        ("accessKeyId", JS.prop (this_credentials this) "accessKeyId");
        ("secretAccessKey", JS.prop (this_credentials this) "secretAccessKey")].

(* TwilioSmsProvider.js; TwilioWhatsAppProvider inherits both. *)

Definition TwilioSmsProvider_verify (this : Provider) : M value :=
  try_catch
    ((* Simple test: fetch account info *)
     sid <- get (this_credentials this) "accountSid" ;;
     account <- client_accounts_fetch this sid ;;
     type <- get account "type" ;;
     status <- get account "status" ;;
     ret (VObj [("success", VBool true);
                ("account_type", type);
                ("status", status)]))
    (fun error =>
       logError "Credential verification" error VUndefined ;;;
       ret (VObj [("success", VBool false);
                  ("error", VStr (error_message error))])).

Definition TwilioSmsProvider_getStatus (this : Provider) : M value :=
  try_catch
    (sid <- get (this_credentials this) "accountSid" ;;
     account <- client_accounts_fetch this sid ;;
     status <- get account "status" ;;
     type <- get account "type" ;;
     ret (VObj [("status", status);
                ("account_type", type)]))
    (fun error =>
       logError "Status check" error VUndefined ;;;
       ret (VObj [("status", VStr "error");
                  ("error", VStr (error_message error))])).

(* SESEmailProvider.js *)

Definition SESEmailProvider_verify (this : Provider) : M value :=
  try_catch
    ((* Check account's verified email addresses *)
     result <- (emit (EvCarrierCall "ses.listVerifiedEmailAddresses" VUndefined) ;;;
                lift_outcome
                  (aws_ses_listVerifiedEmailAddresses api
                     (ses_client_options this))) ;;
     addresses <- get result "VerifiedEmailAddresses" ;;
     ret (VObj [("success",
                 if JS.truthy addresses
                 then VBool (js_gt_zero (js_length addresses))
                 else addresses);
                ("verified_emails", JS.or addresses (VArr []));
                ("count", js_length (JS.or addresses (VArr [])))]))
    (fun error =>
       logError "Credential verification" error VUndefined ;;;
       ret (VObj [("success", VBool false);
                  ("error", VStr (error_message error))])).

Definition SESEmailProvider_getStatus (this : Provider) : M value :=
  try_catch
    (quota <- (emit (EvCarrierCall "ses.getSendQuota" VUndefined) ;;;
               lift_outcome
                 (aws_ses_getSendQuota api (ses_client_options this))) ;;
     max <- get quota "Max24HourSend" ;;
     sent <- get quota "SentLast24Hour" ;;
     rate <- get quota "MaxSendRate" ;;
     ret (VObj [("status", VStr "active");
                ("daily_quota", max);
                ("daily_sent", sent);
                ("max_rate", rate)]))
    (fun error =>
       logError "Status check" error VUndefined ;;;
       ret (VObj [("status", VStr "error");
                  ("error", VStr (error_message error))])).

(* DemoProvider.js *)

Definition DemoProvider_verify (this : Provider) : M value :=
  ret (VObj [("success", VBool true);
             ("message", VStr "Demo provider - no credentials needed")]).

Definition DemoProvider_getStatus (this : Provider) : M value :=
  ret (VObj [("status", VStr "active");
             ("message", VStr "Demo provider - ready to simulate messages");
             ("demo", VBool true)]).

Definition verify (this : Provider) : M value :=
  match class_of this with
  | TwilioSmsProvider | TwilioWhatsAppProvider => TwilioSmsProvider_verify this
  | SESEmailProvider => SESEmailProvider_verify this
  | DemoProvider => DemoProvider_verify this
  end.

Definition getStatus (this : Provider) : M value :=
  match class_of this with
  | TwilioSmsProvider | TwilioWhatsAppProvider =>
      TwilioSmsProvider_getStatus this
  | SESEmailProvider => SESEmailProvider_getStatus this
  | DemoProvider => DemoProvider_getStatus this
  end.

(* providerFactory.js *)

(** The body of [for (const channel of channels)] in [getAllProviders],
    by recursion on the channels left. *)
Fixpoint getAllProviders_from (tenantId : string) (channels : list string)
    (providers : list (string * Provider)) : M (list (string * Provider)) :=
  match channels with
  | [] => ret providers
  | channel :: rest =>
      providers <-
        try_catch
          (provider <- getProvider rt base tenantId channel ;;
           ret (set_provider channel provider providers))
          (fun error =>
             (* Channel not configured - that's okay, just skip it *)
             ret providers) ;;
      getAllProviders_from tenantId rest providers
  end.

Definition getAllProviders (tenantId : string)
  : M (list (string * Provider)) :=
  getAllProviders_from tenantId ["sms"; "whatsapp"; "email"] [].

Definition verifyProvider (tenantId channel : string) : M value :=
  provider <- getProvider rt base tenantId channel ;;
  verify provider.

End Accounts.

(* ================================================================== *)
(** ** The base class, from the spec *)
(* ================================================================== *)

(** Modelled from the spec: normalizeStatus of the absent base class
    MessagingProvider. The normalized set is sent, delivered, read,
    failed, unknown (section 3); delivered maps to delivered, failed and
    undelivered to failed, a name of the set to itself and anything
    unrecognized to unknown (section 4.4). *)
Definition spec_normalizeStatus (status : value) : outcome value :=
  Return (VStr
    (if JS.is_str status "sent" then "sent"
     else if JS.is_str status "delivered" then "delivered"
     else if JS.is_str status "read" then "read"
     else if JS.is_str status "failed" then "failed"
     else if JS.is_str status "undelivered" then "failed"
     else "unknown")).

(** Modelled from the spec: hasRequiredCredentials of the absent base
    class MessagingProvider. The constructors report the listed keys as
    missing credentials, so the check holds when the credentials are an
    object in which every listed key has a truthy value. *)
Definition spec_hasRequiredCredentials (credentials : value)
    (keys : list string) : outcome bool :=
  Return (negb (JS.nullish credentials)
          && forallb (fun k => JS.truthy (JS.prop credentials k)) keys).

Definition spec_MessagingProvider : MessagingProvider :=
  {| normalizeStatus := spec_normalizeStatus;
     hasRequiredCredentials := spec_hasRequiredCredentials |}.

(* ================================================================== *)
(** ** A platform to run examples on *)
(* ================================================================== *)

(** The theorems below hold for every [Platform]. The examples need one
    to compute with: a JSON reader for the integer-only fragment without
    unicode escapes, and stand-ins for the crypto, carrier and Date
    calls that answer a few fixed inputs. *)
Module Sample.

Definition dquote : ascii := "034"%char.
Definition backslash : ascii := "092"%char.

Definition is_ws (c : ascii) : bool :=
  (c =? " ")%char || (c =? "009")%char || (c =? "010")%char
  || (c =? "013")%char.

Fixpoint skip_ws (s : string) : string :=
  match s with
  | String c r => if is_ws c then skip_ws r else s
  | EmptyString => s
  end.

Definition unescape (c : ascii) : option ascii :=
  if (c =? dquote)%char then Some dquote
  else if (c =? backslash)%char then Some backslash
  else if (c =? "/")%char then Some "/"%char
  else if (c =? "n")%char then Some "010"%char
  else if (c =? "t")%char then Some "009"%char
  else if (c =? "r")%char then Some "013"%char
  else if (c =? "b")%char then Some "008"%char
  else if (c =? "f")%char then Some "012"%char
  else None.

(** After the opening quote: the characters up to the closing one. *)
Fixpoint read_string (s : string) : option (string * string) :=
  match s with
  | EmptyString => None
  | String c r =>
      if (c =? dquote)%char then Some ("", r)
      else if (c =? backslash)%char then
        match r with
        | String e r' =>
            match unescape e, read_string r' with
            | Some x, Some (body, rest) => Some (String x body, rest)
            | _, _ => None
            end
        | EmptyString => None
        end
      else if (nat_of_ascii c <? 32)%nat then None
      else match read_string r with
           | Some (body, rest) => Some (String c body, rest)
           | None => None
           end
  end.

Definition digit (c : ascii) : option Z :=
  let n := nat_of_ascii c in
  if ((48 <=? n) && (n <=? 57))%nat then Some (Z.of_nat (n - 48)) else None.

Fixpoint read_digits (s : string) (acc : Z) : Z * string :=
  match s with
  | String c r =>
      match digit c with
      | Some d => read_digits r (10 * acc + d)%Z
      | None => (acc, s)
      end
  | EmptyString => (acc, s)
  end.

Definition read_number (s : string) : option (Z * string) :=
  let '(neg, s') := match s with
                    | String "-" r => (true, r)
                    | _ => (false, s)
                    end in
  match s' with
  | String c _ =>
      match digit c with
      | Some _ =>
          let '(n, rest) := read_digits s' 0%Z in
          match rest with
          | String "." _ | String "e" _ | String "E" _ => None
          | _ => Some ((if neg then - n else n)%Z, rest)
          end
      | None => None
      end
  | EmptyString => None
  end.

Fixpoint strip_prefix (p s : string) : option string :=
  match p, s with
  | EmptyString, _ => Some s
  | String a p', String b s' => if (a =? b)%char then strip_prefix p' s' else None
  | String _ _, EmptyString => None
  end.

Fixpoint read_value (fuel : nat) (s : string) : option (value * string) :=
  match fuel with
  | O => None
  | S fuel =>
      match skip_ws s with
      | String "{" r =>
          match skip_ws r with
          | String "}" rest => Some (VObj [], rest)
          | r' => read_members fuel r' []
          end
      | String "[" r =>
          match skip_ws r with
          | String "]" rest => Some (VArr [], rest)
          | r' => read_elements fuel r' []
          end
      | String c r as s' =>
          if (c =? dquote)%char then
            match read_string r with
            | Some (body, rest) => Some (VStr body, rest)
            | None => None
            end
          else
            match strip_prefix "true" s', strip_prefix "false" s',
                  strip_prefix "null" s' with
            | Some rest, _, _ => Some (VBool true, rest)
            | _, Some rest, _ => Some (VBool false, rest)
            | _, _, Some rest => Some (VNull, rest)
            | _, _, _ =>
                match read_number s' with
                | Some (n, rest) => Some (VNum n, rest)
                | None => None
                end
            end
      | EmptyString => None
      end
  end
with read_members (fuel : nat) (s : string) (acc : list (string * value))
  : option (value * string) :=
  match fuel with
  | O => None
  | S fuel =>
      match skip_ws s with
      | String c r =>
          if (c =? dquote)%char then
            match read_string r with
            | Some (key, rest) =>
                match skip_ws rest with
                | String ":" rest' =>
                    match read_value fuel rest' with
                    | Some (v, rest'') =>
                        let acc' := JS.set_field key v acc in
                        match skip_ws rest'' with
                        | String "," more => read_members fuel more acc'
                        | String "}" more => Some (VObj acc', more)
                        | _ => None
                        end
                    | None => None
                    end
                | _ => None
                end
            | None => None
            end
          else None
      | EmptyString => None
      end
  end
with read_elements (fuel : nat) (s : string) (acc : list value)
  : option (value * string) :=
  match fuel with
  | O => None
  | S fuel =>
      match read_value fuel s with
      | Some (v, rest) =>
          match skip_ws rest with
          | String "," more => read_elements fuel more (acc ++ [v])%list
          | String "]" more => Some (VArr (acc ++ [v])%list, more)
          | _ => None
          end
      | None => None
      end
  end.

Definition parse_json (s : string) : outcome value :=
  match read_value (S (String.length s)) s with
  | Some (v, rest) =>
      match skip_ws rest with
      | EmptyString => Return v
      | _ => Throw (SyntaxError "Unexpected non-whitespace character after JSON")
      end
  | None => Throw (SyntaxError "Unexpected token in JSON")
  end.

Definition q : string := String dquote "".

(** A 32-byte stand-in for the digest: the leading bytes of the input,
    zero padded. *)
Definition digest (s : string) : list Byte.byte :=
  firstn 32 (list_byte_of_string s ++ repeat Byte.x00 32)%list.

Fixpoint bytes_eqb (a b : list Byte.byte) : bool :=
  match a, b with
  | [], [] => true
  | x :: a', y :: b' => Byte.eqb x y && bytes_eqb a' b'
  | _, _ => false
  end.

(** The one ciphertext the stand-in decipher knows, and its plaintext
    {"accountSid":"AC123","authToken":"secret"} under the key of
    [key_string] and the zero IV. *)
Definition twilio_blob : string := "3a9f0c5e7b1d24688642d1b7e5c0f9a3".

Definition twilio_credentials_json : string :=
  "{" ++ q ++ "accountSid" ++ q ++ ":" ++ q ++ "AC123" ++ q ++ ","
      ++ q ++ "authToken" ++ q ++ ":" ++ q ++ "secret" ++ q ++ "}".

Definition key_string : string := "default-dev-key-change-in-production".

Definition decipher (key iv : list Byte.byte) (data : value)
  : outcome string :=
  match data with
  | VStr hex =>
      if (hex =? twilio_blob)
         && bytes_eqb key (firstn 24 (digest key_string))
         && bytes_eqb iv (repeat Byte.x00 16)
      then Return twilio_credentials_json
      else Throw (Rejected "error:1C800064:Provider routines::bad decrypt")
  | _ => Throw (TypeError "The data argument must be of type string")
  end.

(** A carrier that accepts every request, and a signature check with
    one good signature. *)
Definition good_signature : string := "wE4uQ9k3Zr0=".

Definition validateRequest (authToken signature url params : value)
  : outcome bool :=
  Return (JS.is_str signature good_signature).

Definition messages_create (accountSid authToken payload : value)
  : outcome value :=
  Return (VObj [("sid", VStr "CM123")]).

Definition sendEmail (options params : value) : outcome value :=
  Return (VObj [("MessageId", VStr "E1")]).

(** 2024-01-01T00:00:00.000Z is 1704067200000 ms after the epoch. *)
Definition new_year : string := "2024-01-01T00:00:00.000Z".

Definition parse_date (s : string) : option Z :=
  if s =? new_year then Some 1704067200000%Z else None.

Definition iso (t : Z) : string :=
  if (t =? 1704067200000)%Z then new_year else "T+" ++ JS.string_of_Z t.

Definition platform : Platform :=
  {| JSON_parse := parse_json;
     sha256 := digest;
     aes_192_cbc_decipher := decipher;
     twilio_client := fun _ _ => Return tt;
     twilio_validateRequest := validateRequest;
     twilio_messages_create := messages_create;
     aws_ses_client := fun _ => Return tt;
     aws_ses_sendEmail := sendEmail;
     Date_parse := parse_date;
     Date_toISOString := iso;
     Date_toString := iso |}.

Definition world0 : World :=
  {| clock := 1703081234567%Z; env := [];
     tenants := []; tenant_channel_credentials_v2 := [];
     ledger := []; trace := [] |}.

Definition at_time (t : Z) (w : World) : World :=
  {| clock := t; env := env w; tenants := tenants w;
     tenant_channel_credentials_v2 := tenant_channel_credentials_v2 w;
     ledger := ledger w; trace := trace w |}.

(** Tenant T of the spec's scenario: not demo, Twilio on sms with the
    sender number +15550001111. *)
Definition twilio_sms : Provider :=
  {| class_of := TwilioSmsProvider; this_tenantId := "T";
     this_channel := "sms";
     this_credentials :=
       VObj [("accountSid", VStr "AC123"); ("authToken", VStr "secret")];
     this_config := VObj [("phone_number", VStr "+15550001111")] |}.

Definition demo_sms : Provider :=
  {| class_of := DemoProvider; this_tenantId := "D";
     this_channel := "sms"; this_credentials := VObj [];
     this_config := VObj [] |}.

Definition ses_email : Provider :=
  {| class_of := SESEmailProvider; this_tenantId := "T";
     this_channel := "email";
     this_credentials :=
       VObj [("accessKeyId", VStr "AKIA1"); ("secretAccessKey", VStr "k");
             ("region", VStr "us-east-1")];
     this_config := VObj [] |}.

(** {"phone_number":"+15550001111"} *)
Definition sms_config_json : string :=
  "{" ++ q ++ "phone_number" ++ q ++ ":" ++ q ++ "+15550001111" ++ q ++ "}".

(** {"eventType":"Bounce","mail":{"messageId":"E1"}} *)
Definition bounce_json : string :=
  "{" ++ q ++ "eventType" ++ q ++ ":" ++ q ++ "Bounce" ++ q ++ ","
      ++ q ++ "mail" ++ q ++ ":{" ++ q ++ "messageId" ++ q ++ ":"
      ++ q ++ "E1" ++ q ++ "}}".

Definition bounce_notification : value :=
  VObj [("Type", VStr "Notification"); ("Message", VStr bounce_json)].

(** A database with a demo tenant D that has a credential row all the
    same, a tenant T on Twilio (sms configured, email paired with
    Twilio under an undecryptable blob, whatsapp with no blob), and a
    tenant U whose email row names Twilio with an empty blob. *)
Definition db_world : World :=
  {| clock := 1703081234567%Z; env := [];
     tenants := [ {| tenant_id := "D"; is_demo := VNum 1 |};
                  {| tenant_id := "T"; is_demo := VNum 0 |};
                  {| tenant_id := "U"; is_demo := VNum 0 |} ];
     tenant_channel_credentials_v2 :=
       [ {| cred_tenant_id := "D"; cred_channel := "sms";
            provider := "twilio";
            credentials_json_encrypted := VStr "00";
            provider_config_json := VNull |};
         {| cred_tenant_id := "T"; cred_channel := "sms";
            provider := "twilio";
            credentials_json_encrypted := VStr twilio_blob;
            provider_config_json := VStr sms_config_json |};
         {| cred_tenant_id := "T"; cred_channel := "email";
            provider := "twilio";
            credentials_json_encrypted := VStr "00";
            provider_config_json := VNull |};
         {| cred_tenant_id := "T"; cred_channel := "whatsapp";
            provider := "twilio";
            credentials_json_encrypted := VNull;
            provider_config_json := VNull |};
         {| cred_tenant_id := "U"; cred_channel := "email";
            provider := "twilio";
            credentials_json_encrypted := VStr "";
            provider_config_json := VNull |} ];
     ledger := []; trace := [] |}.

Definition delivered_callback : value :=
  VObj [("MessageSid", VStr "CM123"); ("MessageStatus", VStr "delivered")].

Definition demo_callback : value :=
  VObj [("provider_message_id", VStr "demo-m2-1703081234567");
        ("status", VStr "delivered")].

Definition demo_callback_timed : value :=
  VObj [("provider_message_id", VStr "demo-m2-1703081234567");
        ("status", VStr "delivered"); ("timestamp", VNum 1703081239000)].

(** Tenant T's WhatsApp adapter, with a WhatsApp Business number. *)
Definition twilio_whatsapp : Provider :=
  {| class_of := TwilioWhatsAppProvider; this_tenantId := "T";
     this_channel := "whatsapp";
     this_credentials :=
       VObj [("accountSid", VStr "AC123"); ("authToken", VStr "secret")];
     this_config := VObj [("whatsapp_number", VStr "+15550003333")] |}.

Definition m1 : value :=
  VObj [("id", VStr "m1"); ("phone_number", VStr "+15550002222");
        ("content", VStr "hi")].

Definition e1 : value :=
  VObj [("id", VStr "e1"); ("to_email", VStr "ann@example.org");
        ("subject", VStr "Welcome"); ("html_body", VStr "<p>hi</p>");
        ("from_email", VStr "team@example.org")].

(** A tenant V whose sms row names aws_ses and whose email row names a
    carrier the factory does not know. *)
Definition db_world_v : World :=
  {| clock := 1703081234567%Z; env := [];
     tenants := [ {| tenant_id := "V"; is_demo := VNum 0 |} ];
     tenant_channel_credentials_v2 :=
       [ {| cred_tenant_id := "V"; cred_channel := "sms";
            provider := "aws_ses";
            credentials_json_encrypted := VNull;
            provider_config_json := VNull |};
         {| cred_tenant_id := "V"; cred_channel := "email";
            provider := "sendgrid";
            credentials_json_encrypted := VNull;
            provider_config_json := VNull |} ];
     ledger := []; trace := [] |}.

(** An account service that knows the account AC123 and two verified
    addresses. *)
Definition accounts_fetch (accountSid authToken sid : value)
  : outcome value :=
  if JS.is_str sid "AC123"
  then Return (VObj [("type", VStr "Full"); ("status", VStr "active")])
  else Throw (Rejected "The requested resource was not found").

Definition account_api : AccountApi :=
  {| twilio_accounts_fetch := accounts_fetch;
     aws_ses_listVerifiedEmailAddresses := fun _ =>
       Return (VObj [("VerifiedEmailAddresses",
                      VArr [VStr "team@example.org"; VStr "ops@example.org"])]);
     aws_ses_getSendQuota := fun _ =>
       Return (VObj [("Max24HourSend", VNum 200); ("SentLast24Hour", VNum 3);
                     ("MaxSendRate", VNum 1)]);
     string_positive := fun s =>
       match read_number s with
       | Some (n, "") => (0 <? n)%Z
       | _ => false
       end |}.

End Sample.

(* ================================================================== *)
(** ** Vocabulary of the statements *)
(* ================================================================== *)

(** [extends w w']: [w'] is [w] with events appended; clock, environment
    and the three tables are the same. *)
Definition extends (w w' : World) : Prop :=
  clock w' = clock w /\ env w' = env w /\ tenants w' = tenants w
  /\ tenant_channel_credentials_v2 w' = tenant_channel_credentials_v2 w
  /\ ledger w' = ledger w
  /\ exists evs, trace w' = (trace w ++ evs)%list.

(** A computation that changes nothing but the trace. *)
Definition frame {A} (m : M A) : Prop := forall w, extends w (snd (m w)).

(** Partial and total correctness of a computation against a
    postcondition on its normal result. *)
Definition ensures {A} (m : M A) (Q : A -> Prop) : Prop :=
  forall w a, fst (m w) = Return a -> Q a.

Definition total {A} (m : M A) (Q : A -> Prop) : Prop :=
  forall w, exists a, fst (m w) = Return a /\ Q a.

(** The events a run added to the trace of the world it started in. *)
Definition events_since (w w' : World) : list event :=
  skipn (length (trace w)) (trace w').

Definition add_events (w : World) (evs : list event) : World :=
  {| clock := clock w; env := env w; tenants := tenants w;
     tenant_channel_credentials_v2 := tenant_channel_credentials_v2 w;
     ledger := ledger w; trace := (trace w ++ evs)%list |}.

Definition is_construct (e : event) : bool :=
  match e with EvConstruct _ _ => true | _ => false end.

Definition is_carrier_call (e : event) : bool :=
  match e with EvCarrierCall _ _ => true | _ => false end.

Definition is_credential_access (e : event) : bool :=
  match e with
  | EvQueryCredentials _ _ | EvDecipher _ => true
  | _ => false
  end.

(** The provider name each class puts in its send results. *)
Definition provider_name (c : provider_class) : string :=
  match c with
  | TwilioSmsProvider | TwilioWhatsAppProvider => "twilio"
  | SESEmailProvider => "aws_ses"
  | DemoProvider => "demo"
  end.

(** The two shapes of a send result. *)
Definition send_success (c : provider_class) (r : value) : Prop :=
  JS.prop r "success" = VBool true
  /\ JS.has_field r "provider_message_id" = true
  /\ JS.prop r "status" = VStr "sent"
  /\ JS.prop r "provider" = VStr (provider_name c).

Definition send_failure (c : provider_class) (r : value) : Prop :=
  exists msg,
    JS.prop r "success" = VBool false
    /\ JS.prop r "error" = VStr msg
    /\ JS.prop r "provider" = VStr (provider_name c)
    /\ JS.has_field r "provider_message_id" = false.

(** The two shapes of a parseWebhook result. *)
Definition webhook_parsed (r : value) : Prop :=
  JS.truthy (JS.prop r "provider_message_id") = true
  /\ JS.has_field r "status" = true
  /\ JS.has_field r "timestamp" = true
  /\ JS.has_field r "error" = false.

Definition webhook_error (r : value) : Prop :=
  exists msg,
    JS.prop r "error" = VStr msg
    /\ JS.prop r "status" = VStr "unknown"
    /\ JS.has_field r "provider_message_id" = false.

(** A row of the Mapping Ledger for the given message, channel, carrier
    and carrier-assigned id. *)
Definition has_mapping (w : World) (message_id channel carrier : string)
    (provider_message_id : string) : bool :=
  existsb (fun r => JS.is_str (map_message_id r) message_id
                    && (map_channel r =? channel)
                    && (map_provider r =? carrier)
                    && JS.is_str (map_provider_message_id r)
                                    provider_message_id)
          (ledger w).

(** The configured key string: ENCRYPTION_KEY when set and not empty,
    the development default otherwise. *)
Definition encryption_key (w : World) : string :=
  match env_lookup "ENCRYPTION_KEY" (env w) with
  | Some s => if s =? "" then default_encryption_key else s
  | None => default_encryption_key
  end.

(** What a blob decrypts to under a key string: the plaintext under the
    derived key and the zero IV, read as JSON. *)
Definition decrypted_json (rt : Platform) (key_string : string)
    (data : value) : outcome value :=
  match aes_192_cbc_decipher rt (derive_key rt key_string) zero_iv data with
  | Return plaintext => JSON_parse rt plaintext
  | Throw e => Throw e
  end.

(** The lookups of [getProvider]. *)
Definition tenant_of (w : World) (tenantId : string) : option tenant_row :=
  find (fun r => tenant_id r =? tenantId) (tenants w).

Definition credentials_of (w : World) (tenantId channel : string)
  : option credential_row :=
  find (fun r => (cred_tenant_id r =? tenantId) && (cred_channel r =? channel))
       (tenant_channel_credentials_v2 w).

(** The stored blob is empty or decrypts; the stored config is empty or
    parses. *)
Definition credentials_usable (rt : Platform) (w : World)
    (row : credential_row) : Prop :=
  JS.truthy (credentials_json_encrypted row) = false
  \/ exists d, decrypted_json rt (encryption_key w)
                 (credentials_json_encrypted row) = Return d.

Definition config_usable (rt : Platform) (row : credential_row) : Prop :=
  JS.truthy (provider_config_json row) = false
  \/ exists c, JSON_parse rt (to_js_string rt (provider_config_json row))
               = Return c.

(** The config [getProvider] hands to a constructor. *)
Definition config_value (rt : Platform) (row : credential_row) : outcome value :=
  if JS.truthy (provider_config_json row)
  then JSON_parse rt (to_js_string rt (provider_config_json row))
  else Return (VObj []).

(** The pairs of the [switch] in [getProvider] that reach a constructor. *)
Definition dispatch_class (provider channel : string) : option provider_class :=
  if provider =? "twilio" then
    if channel =? "sms" then Some TwilioSmsProvider
    else if channel =? "whatsapp" then Some TwilioWhatsAppProvider
    else None
  else if provider =? "aws_ses" then
    if channel =? "email" then Some SESEmailProvider else None
  else None.

Definition required_keys (c : provider_class) : list string :=
  match c with
  | TwilioSmsProvider | TwilioWhatsAppProvider => ["accountSid"; "authToken"]
  | SESEmailProvider => ["accessKeyId"; "secretAccessKey"; "region"]
  | DemoProvider => []
  end.

Definition missing_credentials (c : provider_class) : string :=
  match c with
  | TwilioSmsProvider | TwilioWhatsAppProvider =>
      "Twilio SMS: Missing required credentials (accountSid, authToken)"
  | SESEmailProvider =>
      "AWS SES: Missing required credentials (accessKeyId, secretAccessKey, region)"
  | DemoProvider => ""
  end.

(** The error of the [switch] for a pair that reaches no constructor. *)
Definition unsupported_message (provider channel : string) : string :=
  if provider =? "twilio" then "Twilio does not support channel: " ++ channel
  else if provider =? "aws_ses"
  then "AWS SES does not support channel: " ++ channel
  else "Unknown provider: " ++ provider.

(** [new C(tenantId, channel, credentials, config)] for a class [C]. *)
Definition construct (rt : Platform) (base : MessagingProvider)
    (c : provider_class) (tenantId channel : string)
    (credentials config : value) : M Provider :=
  match c with
  | TwilioSmsProvider | TwilioWhatsAppProvider =>
      new_TwilioSmsProvider rt base c tenantId channel credentials config
  | SESEmailProvider =>
      new_SESEmailProvider rt base tenantId channel credentials config
  | DemoProvider => new_DemoProvider tenantId channel credentials config
  end.

(** The event inside an SNS envelope, or the body itself. *)
Definition ses_event_of (rt : Platform) (body : value) : outcome value :=
  if JS.nullish body
  then Throw (TypeError ("Cannot read properties of " ++ JS.type_name body
                         ++ " (reading 'Type')"))
  else if JS.is_str (JS.prop body "Type") "Notification"
          && JS.truthy (JS.prop body "Message")
  then JSON_parse rt (to_js_string rt (JS.prop body "Message"))
  else Return body.

(** Where each class reads the carrier-assigned id of a callback. *)
Definition webhook_id (rt : Platform) (c : provider_class) (body : value)
  : value :=
  match c with
  | TwilioSmsProvider | TwilioWhatsAppProvider => get_opt body "MessageSid"
  | DemoProvider => get_opt body "provider_message_id"
  | SESEmailProvider =>
      match ses_event_of rt body with
      | Return event => get_opt (get_opt event "mail") "messageId"
      | Throw _ => VUndefined
      end
  end.

Definition webhook_parsed_as (id r : value) : Prop :=
  webhook_parsed r /\ JS.prop r "provider_message_id" = id.

Definition twilio_class (c : provider_class) : bool :=
  match c with
  | TwilioSmsProvider | TwilioWhatsAppProvider => true
  | _ => false
  end.

(** The timestamp a callback carries itself, if any: none for Twilio,
    [body.timestamp] for Demo, and for SES the first truthy one of the
    delivery, bounce and complaint sub-objects of the event. *)
Definition payload_timestamp (rt : Platform) (c : provider_class)
    (body : value) : value :=
  match c with
  | TwilioSmsProvider | TwilioWhatsAppProvider => VUndefined
  | DemoProvider => get_opt body "timestamp"
  | SESEmailProvider =>
      match ses_event_of rt body with
      | Return event =>
          JS.or (get_opt (get_opt event "delivery") "timestamp")
            (JS.or (get_opt (get_opt event "bounce") "timestamp")
                   (get_opt (get_opt event "complaint") "timestamp"))
      | Throw _ => VUndefined
      end
  end.

(** Two outcomes of one computation run at times [t1] and [t2]. *)
Definition rel_outcome {A} (R : A -> A -> Prop) (o1 o2 : outcome A) : Prop :=
  match o1, o2 with
  | Return a, Return b => R a b
  | Throw e1, Throw e2 => e1 = e2
  | _, _ => False
  end.

Definition related {A} (t1 t2 : Z) (R : A -> A -> Prop) (m1 m2 : M A) : Prop :=
  forall w1 w2, clock w1 = t1 -> clock w2 = t2 ->
                rel_outcome R (fst (m1 w1)) (fst (m2 w2)).

(** Equal but for the timestamp field, and equal altogether when
    [same_time] holds. *)
Definition same_but_timestamp (same_time : Prop) (r1 r2 : value) : Prop :=
  JS.without "timestamp" r1 = JS.without "timestamp" r2
  /\ (same_time -> r1 = r2).

(** The status names of the normalized set. *)
Definition normalized_names : list string :=
  ["sent"; "delivered"; "read"; "failed"; "unknown"].

Definition fixes_normalized_names (base : MessagingProvider) : Prop :=
  forall s, In s normalized_names ->
            normalizeStatus base (VStr s) = Return (VStr s).

(** The failure answers of verify and of getStatus. *)
Definition check_failed (r : value) : Prop :=
  JS.prop r "success" = VBool false
  /\ exists msg, JS.prop r "error" = VStr msg.

Definition status_failed (r : value) : Prop :=
  JS.prop r "status" = VStr "error"
  /\ exists msg, JS.prop r "error" = VStr msg.

(** Two worlds that differ in their traces at most. *)
Definition same_inputs (w1 w2 : World) : Prop :=
  clock w1 = clock w2 /\ env w1 = env w2 /\ tenants w1 = tenants w2
  /\ tenant_channel_credentials_v2 w1 = tenant_channel_credentials_v2 w2
  /\ ledger w1 = ledger w2.

(** A computation whose outcome does not depend on the trace. *)
Definition stable {A} (m : M A) : Prop :=
  forall w1 w2, same_inputs w1 w2 ->
                fst (m w1) = fst (m w2)
                /\ same_inputs (snd (m w1)) (snd (m w2)).

(** The entry [getAllProviders] holds for a channel: the adapter
    [getProvider] resolves in the given world, or none. *)
Definition resolved (rt : Platform) (base : MessagingProvider)
    (tenantId : string) (w : World) (channel : string)
  : list (string * Provider) :=
  match fst (getProvider rt base tenantId channel w) with
  | Return p => [(channel, p)]
  | Throw _ => []
  end.

(** The number of carrier requests among some events. *)
Definition carrier_calls (evs : list event) : nat :=
  List.length (filter is_carrier_call evs).

Definition calls_at_most {A} (n : nat) (m : M A) : Prop :=
  forall w, exists evs,
    trace (snd (m w)) = (trace w ++ evs)%list /\ (carrier_calls evs <= n)%nat.

(** The client a constructor builds is accepted by the library. *)
Definition client_accepts (rt : Platform) (c : provider_class)
    (credentials : value) : Prop :=
  match c with
  | TwilioSmsProvider | TwilioWhatsAppProvider =>
      twilio_client rt (JS.prop credentials "accountSid")
                       (JS.prop credentials "authToken") = Return tt
  | SESEmailProvider =>
      aws_ses_client rt
        (VObj [("region", JS.prop credentials "region");
               ("accessKeyId", JS.prop credentials "accessKeyId");
               ("secretAccessKey", JS.prop credentials "secretAccessKey")])
      = Return tt
  | DemoProvider => True
  end.

(** The messaging-service sid [send] resolves: the tenant's, else the
    environment's, else null. *)
Definition messaging_service_sid (this : Provider) (w : World) : value :=
  JS.or (JS.prop (this_config this) "messaging_service_sid")
        (JS.or (match env_lookup "TWILIO_MESSAGING_SERVICE_SID" (env w) with
                | Some s => VStr s
                | None => VUndefined
                end) VNull).

(** What [send] answers after a carrier call that resolved to [result]
    or threw: the id read off the result under [id_key]. *)
Definition send_result (carrier : string) (id_key : string)
    (o : outcome value) : value :=
  match o with
  | Return result =>
      if JS.nullish result
      then VObj [("success", VBool false);
                 ("error", VStr ("Cannot read properties of "
                                 ++ JS.type_name result
                                 ++ " (reading '" ++ id_key ++ "')"));
                 ("provider", VStr carrier)]
      else VObj [("success", VBool true);
                 ("provider_message_id", JS.prop result id_key);
                 ("status", VStr "sent");
                 ("provider", VStr carrier)]
  | Throw e =>
      VObj [("success", VBool false);
            ("error", VStr (error_message e));
            ("provider", VStr carrier)]
  end.

(** The payload [TwilioSmsProvider.send] hands to the carrier: the
    pooled sender when one resolves, the from-number otherwise. *)
Definition sms_payload (this : Provider) (message : value) (w : World)
  : value :=
  VObj (if JS.truthy (messaging_service_sid this w)
        then [("to", JS.prop message "phone_number");
              ("body", JS.prop message "content");
              ("messagingServiceSid", messaging_service_sid this w)]
        else [("to", JS.prop message "phone_number");
              ("body", JS.prop message "content");
              ("from", JS.or (JS.prop message "from_number")
                             (JS.prop (this_config this) "phone_number"))]).

(** The payload [TwilioWhatsAppProvider.send] hands to the carrier. *)
Definition whatsapp_payload (rt : Platform) (this : Provider)
    (message : value) : value :=
  VObj [("from",
         VStr ("whatsapp:"
               ++ to_js_string rt
                    (JS.or (JS.prop message "from_number")
                           (JS.prop (this_config this) "whatsapp_number"))));
        ("to", VStr ("whatsapp:"
                     ++ to_js_string rt (JS.prop message "phone_number")));
        ("body", JS.prop message "content")].

(** The four fields [SESEmailProvider.send] requires. *)
Definition email_complete (message : value) : bool :=
  JS.truthy (JS.prop message "to_email")
  && JS.truthy (JS.prop message "subject")
  && JS.truthy (JS.prop message "html_body")
  && JS.truthy (JS.prop message "from_email").

(** The timestamp an SES event yields: the first truthy one of its
    delivery, bounce and complaint timestamps, else the ISO string of
    the time of the call. *)
Definition ses_event_timestamp (rt : Platform) (event : value) (now : Z)
  : value :=
  JS.or (get_opt (get_opt event "delivery") "timestamp")
    (JS.or (get_opt (get_opt event "bounce") "timestamp")
       (JS.or (get_opt (get_opt event "complaint") "timestamp")
              (VStr (Date_toISOString rt now)))).

(** What [verifyWebhookSignature] answers. *)
Definition signature_accepted (rt : Platform) (this : Provider)
    (body signature : value) : bool :=
  if JS.nullish (this_config this) || JS.nullish (this_credentials this)
  then false
  else match twilio_validateRequest rt
               (JS.prop (this_credentials this) "authToken") signature
               (JS.or (JS.prop (this_config this) "webhook_url") (VStr ""))
               body with
       | Return b => b
       | Throw _ => false
       end.

(* ================================================================== *)
(** ** What a run may change: nothing but the trace *)
(* ================================================================== *)

Lemma extends_refl w : extends w w.
Proof.
  unfold extends; repeat split; exists []; now rewrite app_nil_r.
Qed.

Lemma extends_trans w1 w2 w3 :
  extends w1 w2 -> extends w2 w3 -> extends w1 w3.
Proof.
  intros (c1 & e1 & t1 & k1 & l1 & evs1 & tr1)
         (c2 & e2 & t2 & k2 & l2 & evs2 & tr2).
  unfold extends; repeat split; try congruence.
  exists (evs1 ++ evs2)%list. now rewrite tr2, tr1, app_assoc.
Qed.

Lemma frame_ret {A} (a : A) : frame (ret a).
Proof. intro w; apply extends_refl. Qed.

Lemma frame_throw {A} (e : exn) : frame (@throw A e).
Proof. intro w; apply extends_refl. Qed.

Lemma frame_bind {A B} (m : M A) (k : A -> M B) :
  frame m -> (forall a, frame (k a)) -> frame (bind m k).
Proof.
  intros Hm Hk w. unfold bind. specialize (Hm w).
  destruct (m w) as [[a | e] w']; simpl in *; auto.
  eapply extends_trans; [exact Hm | apply Hk].
Qed.

Lemma frame_try_catch {A} (body : M A) (handler : exn -> M A) :
  frame body -> (forall e, frame (handler e)) -> frame (try_catch body handler).
Proof.
  intros Hb Hh w. unfold try_catch. specialize (Hb w).
  destruct (body w) as [[a | e] w']; simpl in *; auto.
  eapply extends_trans; [exact Hb | apply Hh].
Qed.

Lemma frame_emit e : frame (emit e).
Proof.
  intro w; unfold extends; simpl; repeat split. now exists [e].
Qed.

Lemma frame_Date_now : frame Date_now.
Proof. intro w; apply extends_refl. Qed.

Lemma frame_process_env name : frame (process_env name).
Proof. intro w; apply extends_refl. Qed.

Lemma frame_lift_outcome {A} (o : outcome A) : frame (lift_outcome o).
Proof. destruct o; intro w; apply extends_refl. Qed.

Lemma frame_get v k : frame (get v k).
Proof. unfold get; destruct (JS.nullish v); intro w; apply extends_refl. Qed.

Lemma frame_destructure v k n : frame (destructure v k n).
Proof.
  unfold destructure; destruct (JS.nullish v); intro w; apply extends_refl.
Qed.

Lemma frame_select_tenant id : frame (select_tenant id).
Proof.
  apply frame_bind; [apply frame_emit | intros _ w; apply extends_refl].
Qed.

Lemma frame_select_credentials id ch : frame (select_credentials id ch).
Proof.
  apply frame_bind; [apply frame_emit | intros _ w; apply extends_refl].
Qed.

Create HintDb frame.
#[export] Hint Resolve frame_ret frame_throw frame_emit frame_Date_now
  frame_process_env frame_lift_outcome frame_get frame_destructure
  frame_select_tenant frame_select_credentials : frame.

(** One step of a frame proof: split a sequence or a try, or decide a
    branch. *)
Ltac frame_step :=
  match goal with
  | |- frame (bind _ _) => apply frame_bind; [ | intros ]
  | |- frame (try_catch _ _) => apply frame_try_catch; [ | intros ]
  | |- frame (if ?b then _ else _) => destruct b
  | |- frame (match ?x with _ => _ end) => destruct x
  | |- frame _ => solve [ auto with frame ]
  end.

Ltac frame_auto := repeat frame_step.

Section FrameLemmas.

Variable rt : Platform.
Variable base : MessagingProvider.

Lemma frame_logError c e x : frame (logError c e x).
Proof. apply frame_emit. Qed.

Lemma frame_console_log l d : frame (console_log l d).
Proof. apply frame_emit. Qed.

Hint Resolve frame_logError frame_console_log : frame.

Lemma frame_JSON_parse_value v : frame (JSON_parse_value rt v).
Proof. apply frame_lift_outcome. Qed.

Hint Resolve frame_JSON_parse_value : frame.

Lemma frame_decryptCredentials data : frame (decryptCredentials rt data).
Proof. unfold decryptCredentials. frame_auto. Qed.

Lemma frame_getProvider tenantId channel :
  frame (getProvider rt base tenantId channel).
Proof.
  unfold getProvider, new_TwilioSmsProvider, new_SESEmailProvider,
    new_DemoProvider, ses_options.
  pose proof frame_decryptCredentials. frame_auto.
Qed.

Lemma frame_send this message : frame (send rt this message).
Proof.
  unfold send, TwilioSmsProvider_send, TwilioWhatsAppProvider_send,
    SESEmailProvider_send, DemoProvider_send, client_messages_create,
    ses_sendEmail, generateDemoMessageId.
  frame_auto.
Qed.

Lemma frame_verifyWebhookSignature this body signature :
  frame (verifyWebhookSignature rt this body signature).
Proof. unfold verifyWebhookSignature. frame_auto. Qed.

Lemma frame_parseWebhook this body signature :
  frame (parseWebhook rt base this body signature).
Proof.
  unfold parseWebhook, TwilioWhatsAppProvider_parseWebhook,
    TwilioSmsProvider_parseWebhook, SESEmailProvider_parseWebhook,
    DemoProvider_parseWebhook, ses_unwrap, ses_timestamp.
  pose proof frame_verifyWebhookSignature. frame_auto.
Qed.

End FrameLemmas.

(* ================================================================== *)
(** ** Rules for [ensures] and [total] *)
(* ================================================================== *)

Lemma ensures_ret {A} (a : A) (Q : A -> Prop) : Q a -> ensures (ret a) Q.
Proof. intros H w a' E; inversion E; subst; exact H. Qed.

Lemma ensures_throw {A} (e : exn) (Q : A -> Prop) : ensures (throw e) Q.
Proof. intros w a E; discriminate E. Qed.

Lemma ensures_bind_with {A B} (P : A -> Prop) (m : M A) (k : A -> M B)
    (Q : B -> Prop) :
  ensures m P -> (forall a, P a -> ensures (k a) Q) -> ensures (bind m k) Q.
Proof.
  intros Hm Hk w b. unfold bind. specialize (Hm w).
  destruct (m w) as [[a | e] w']; simpl in *.
  - apply Hk, Hm; reflexivity.
  - discriminate.
Qed.

Lemma ensures_bind {A B} (m : M A) (k : A -> M B) (Q : B -> Prop) :
  (forall a, ensures (k a) Q) -> ensures (bind m k) Q.
Proof.
  intro Hk. apply ensures_bind_with with (P := fun _ => True); auto.
  intros w a _; exact I.
Qed.

Lemma ensures_try_catch {A} (body : M A) (handler : exn -> M A)
    (Q : A -> Prop) :
  ensures body Q -> (forall e, ensures (handler e) Q) ->
  ensures (try_catch body handler) Q.
Proof.
  intros Hb Hh w a. unfold try_catch. specialize (Hb w).
  destruct (body w) as [[a' | e] w']; simpl in *.
  - intro E; inversion E; subst; apply Hb; reflexivity.
  - apply Hh.
Qed.

Lemma ensures_get v k :
  ensures (get v k) (fun x => x = JS.prop v k /\ JS.nullish v = false).
Proof.
  intros w a. unfold get. destruct (JS.nullish v); simpl; intro E.
  - discriminate.
  - inversion E; auto.
Qed.

Lemma total_ret {A} (a : A) (Q : A -> Prop) : Q a -> total (ret a) Q.
Proof. intros H w; exists a; auto. Qed.

Lemma total_bind {A B} (P : A -> Prop) (m : M A) (k : A -> M B)
    (Q : B -> Prop) :
  total m P -> (forall a, P a -> total (k a) Q) -> total (bind m k) Q.
Proof.
  intros Hm Hk w. unfold bind. destruct (Hm w) as (a & E & Pa).
  destruct (m w) as [[a' | e] w']; simpl in *; [ | discriminate ].
  inversion E; subst. apply Hk, Pa.
Qed.

(** A try returns as soon as its handler does: whatever the body throws
    is caught. *)
Lemma total_try_catch {A} (body : M A) (handler : exn -> M A)
    (Q : A -> Prop) :
  ensures body Q -> (forall e, total (handler e) Q) ->
  total (try_catch body handler) Q.
Proof.
  intros Hb Hh w. unfold try_catch. specialize (Hb w).
  destruct (body w) as [[a | e] w']; simpl in *.
  - exists a; auto.
  - apply Hh.
Qed.

Lemma total_emit e : total (emit e) (fun _ => True).
Proof. intro w; exists tt; auto. Qed.

Lemma total_get v k :
  JS.nullish v = false -> total (get v k) (fun x => x = JS.prop v k).
Proof. intros H w; unfold get; rewrite H; eexists; split; reflexivity. Qed.

Ltac ensures_step :=
  match goal with
  | |- ensures (bind _ _) _ => apply ensures_bind; intros
  | |- ensures (try_catch _ _) _ => apply ensures_try_catch; [ | intros ]
  | |- ensures (throw _) _ => apply ensures_throw
  | |- ensures (ret _) _ => apply ensures_ret
  | |- ensures (if ?b then _ else _) _ => destruct b eqn:?
  | |- ensures (match ?x with _ => _ end) _ => destruct x eqn:?
  end.

Lemma prop_string_not_nullish r k s : JS.prop r k = VStr s -> JS.nullish r = false.
Proof. destruct r; simpl; intro H; try discriminate; reflexivity. Qed.

Lemma prop_truthy_not_nullish r k :
  JS.truthy (JS.prop r k) = true -> JS.nullish r = false.
Proof. destruct r; simpl; intro H; try discriminate; reflexivity. Qed.

Lemma events_since_app w w' evs :
  trace w' = (trace w ++ evs)%list -> events_since w w' = evs.
Proof.
  intro H. unfold events_since. rewrite H, skipn_app, skipn_all, Nat.sub_diag.
  reflexivity.
Qed.

(* ================================================================== *)
(** ** send *)
(* ================================================================== *)

Section Send.

Variable rt : Platform.

(** Whatever [send] returns has one of the two result shapes. *)
Lemma send_result_shape this message :
  ensures (send rt this message)
          (fun r => send_success (class_of this) r
                    \/ send_failure (class_of this) r).
Proof.
  unfold send, TwilioSmsProvider_send, TwilioWhatsAppProvider_send,
    SESEmailProvider_send, DemoProvider_send.
  destruct (class_of this); repeat ensures_step;
    solve [ left; repeat split; reflexivity
          | right; eexists; repeat split; reflexivity ].
Qed.

(** With a message that is an object (or any value other than
    undefined and null), [send] returns: every failure of the body is
    turned into a result by the handler. *)
Lemma send_returns_for_present_message this message :
  JS.nullish message = false ->
  total (send rt this message)
        (fun r => send_success (class_of this) r
                  \/ send_failure (class_of this) r).
Proof.
  intros Hm w.
  assert (R : exists r, fst (send rt this message w) = Return r).
  { unfold send, TwilioSmsProvider_send, TwilioWhatsAppProvider_send,
      SESEmailProvider_send, DemoProvider_send, logError.
    unfold try_catch.
    destruct (class_of this);
      match goal with
      | |- context [match ?body w with _ => _ end] =>
          destruct (body w) as [[r | e] w']
      end; simpl; eauto;
      unfold bind, get, emit, ret; rewrite Hm; simpl; eauto. }
  destruct R as (r & E). exists r; split; [exact E | ].
  exact (send_result_shape this message w r E).
Qed.

(** The Demo adapter returns on every input, absent messages
    included. *)
Lemma DemoProvider_send_returns this message :
  total (DemoProvider_send rt this message)
        (fun r => send_success DemoProvider r \/ send_failure DemoProvider r).
Proof.
  unfold DemoProvider_send. apply total_try_catch.
  - repeat ensures_step. left; repeat split; reflexivity.
  - intro e. apply total_ret. right; eexists; repeat split; reflexivity.
Qed.


(** C2, at the failing input. With no message at all (undefined or
    null) the Twilio SMS, Twilio WhatsApp and SES adapters throw from
    inside their catch handler, which reads a field of the message to
    build the log context; the Demo adapter, whose handler does not
    touch the message, returns the failure result. *)
Theorem send_absent_message_throws this w :
  send rt this VUndefined w
  = match class_of this with
    | TwilioSmsProvider | TwilioWhatsAppProvider =>
        (Throw (TypeError
           "Cannot read properties of undefined (reading 'phone_number')"), w)
    | SESEmailProvider =>
        (Throw (TypeError
           "Cannot read properties of undefined (reading 'to_email')"), w)
    | DemoProvider =>
        (Return (VObj [("success", VBool false);
                       ("error", VStr
                          "Cannot read properties of undefined (reading 'id')");
                       ("provider", VStr "demo"); ("demo", VBool true)]), w)
    end
  /\ send rt this VNull w
     = match class_of this with
       | TwilioSmsProvider | TwilioWhatsAppProvider =>
           (Throw (TypeError
              "Cannot read properties of null (reading 'phone_number')"), w)
       | SESEmailProvider =>
           (Throw (TypeError
              "Cannot read properties of null (reading 'to_email')"), w)
       | DemoProvider =>
           (Return (VObj [("success", VBool false);
                          ("error", VStr
                             "Cannot read properties of null (reading 'id')");
                          ("provider", VStr "demo"); ("demo", VBool true)]), w)
       end.
Proof.
  unfold send. destruct (class_of this); split; reflexivity.
Qed.

End Send.


(* ================================================================== *)
(** ** parseWebhook *)
(* ================================================================== *)

Section Webhook.

Variable rt : Platform.
Variable base : MessagingProvider.

Lemma ses_unwrap_event body w :
  ses_unwrap rt body w = (ses_event_of rt body, w).
Proof.
  unfold ses_unwrap, ses_event_of, bind, get, JSON_parse_value.
  destruct (JS.nullish body) eqn:N; [ reflexivity | ].
  unfold ret at 1.
  destruct (JS.is_str (JS.prop body "Type") "Notification"); simpl;
    [ | reflexivity ].
  destruct (JS.truthy (JS.prop body "Message")); [ | reflexivity ].
  unfold lift_outcome.
  destruct (JSON_parse rt (to_js_string rt (JS.prop body "Message")));
    reflexivity.
Qed.

Lemma ensures_ses_unwrap body :
  ensures (ses_unwrap rt body) (fun event => ses_event_of rt body = Return event).
Proof. intros w a. rewrite ses_unwrap_event. simpl. auto. Qed.

Lemma TwilioSmsProvider_parseWebhook_shape this body signature :
  total (TwilioSmsProvider_parseWebhook rt base this body signature)
        (fun r => webhook_parsed_as (get_opt body "MessageSid") r
                  \/ webhook_error r).
Proof.
  unfold TwilioSmsProvider_parseWebhook. apply total_try_catch.
  - apply ensures_bind; intro ok.
    destruct (negb ok); [ apply ensures_throw | ].
    eapply ensures_bind_with; [ apply ensures_get | ].
    intros messageId (-> & N).
    apply ensures_bind; intro status.
    destruct (negb (JS.truthy (JS.prop body "MessageSid"))) eqn:T;
      [ apply ensures_throw | ].
    repeat ensures_step.
    left. unfold webhook_parsed_as, webhook_parsed, get_opt. rewrite N.
    apply negb_false_iff in T. simpl. auto.
  - intro e. apply total_bind with (P := fun _ => True);
      [ apply total_emit | intros _ _ ].
    apply total_ret. right. eexists; repeat split; reflexivity.
Qed.

Lemma TwilioWhatsAppProvider_parseWebhook_shape this body signature :
  total (TwilioWhatsAppProvider_parseWebhook rt base this body signature)
        (fun r => webhook_parsed_as (get_opt body "MessageSid") r
                  \/ webhook_error r).
Proof.
  unfold TwilioWhatsAppProvider_parseWebhook.
  eapply total_bind; [ apply TwilioSmsProvider_parseWebhook_shape | ].
  intros parent HP. simpl in HP.
  assert (N : JS.nullish parent = false).
  { destruct HP as [((T & _) & _) | (msg & E & _)].
    - eapply prop_truthy_not_nullish; exact T.
    - eapply prop_string_not_nullish; exact E. }
  eapply total_bind; [ apply total_get; exact N | ].
  intros error _. destruct (JS.truthy error); apply total_ret; exact HP.
Qed.

Lemma DemoProvider_parseWebhook_shape this body signature :
  total (DemoProvider_parseWebhook rt base this body signature)
        (fun r => webhook_parsed_as (get_opt body "provider_message_id") r
                  \/ webhook_error r).
Proof.
  unfold DemoProvider_parseWebhook. apply total_try_catch.
  - eapply ensures_bind_with; [ apply ensures_get | ].
    intros id (-> & N).
    destruct (negb (JS.truthy (JS.prop body "provider_message_id"))) eqn:T;
      [ apply ensures_throw | ].
    eapply ensures_bind_with; [ apply ensures_get | ].
    intros id (-> & _).
    repeat ensures_step;
      (left; unfold webhook_parsed_as, webhook_parsed, get_opt; rewrite N;
       apply negb_false_iff in T; simpl; auto).
  - intro e. apply total_bind with (P := fun _ => True);
      [ apply total_emit | intros _ _ ].
    apply total_ret. right. eexists; repeat split; reflexivity.
Qed.

Lemma SESEmailProvider_parseWebhook_shape this body signature :
  total (SESEmailProvider_parseWebhook rt base this body signature)
        (fun r => webhook_parsed_as
                    (webhook_id rt SESEmailProvider body) r
                  \/ webhook_error r).
Proof.
  unfold SESEmailProvider_parseWebhook. apply total_try_catch.
  - eapply ensures_bind_with; [ apply ensures_ses_unwrap | ].
    intros event Ev.
    eapply ensures_bind_with; [ apply ensures_get | ].
    intros mail (-> & N).
    eapply ensures_bind_with
      with (P := fun valid : bool =>
                   valid = true ->
                   JS.truthy (JS.prop (JS.prop event "mail") "messageId") = true).
    { destruct (negb (JS.truthy (JS.prop event "mail")));
        [ apply ensures_ret; discriminate | ].
      eapply ensures_bind_with; [ apply ensures_get | ].
      intros id (-> & _). apply ensures_ret. auto. }
    intros valid V.
    destruct valid; simpl; [ | apply ensures_throw ].
    eapply ensures_bind_with; [ apply ensures_get | ].
    intros id (-> & M).
    repeat ensures_step.
    left. unfold webhook_parsed_as, webhook_parsed, webhook_id, get_opt.
    rewrite Ev, N, M. simpl. auto.
  - intro e. apply total_bind with (P := fun _ => True);
      [ apply total_emit | intros _ _ ].
    apply total_ret. right. eexists; repeat split; reflexivity.
Qed.

Lemma parseWebhook_shape this body signature :
  total (parseWebhook rt base this body signature)
        (fun r => webhook_parsed_as (webhook_id rt (class_of this) body) r
                  \/ webhook_error r).
Proof.
  unfold parseWebhook. destruct (class_of this).
  - apply TwilioSmsProvider_parseWebhook_shape.
  - apply TwilioWhatsAppProvider_parseWebhook_shape.
  - apply SESEmailProvider_parseWebhook_shape.
  - apply DemoProvider_parseWebhook_shape.
Qed.

(** A callback that fails the signature check is answered with the
    error result, whatever its fields. *)
Lemma parseWebhook_rejects_bad_signature this body signature w :
  twilio_class (class_of this) = true ->
  fst (verifyWebhookSignature rt this body signature w) = Return false ->
  fst (parseWebhook rt base this body signature w)
  = Return (VObj [("error", VStr "Invalid webhook signature");
                  ("status", VStr "unknown")]).
Proof.
  intros C V. unfold parseWebhook.
  assert (E : fst (TwilioSmsProvider_parseWebhook rt base this body signature w)
              = Return (VObj [("error", VStr "Invalid webhook signature");
                              ("status", VStr "unknown")])).
  { unfold TwilioSmsProvider_parseWebhook, try_catch, bind at 1.
    destruct (verifyWebhookSignature rt this body signature w)
      as [[ok | e] w1]; simpl in V; [ | discriminate ].
    inversion V; subst. reflexivity. }
  destruct (class_of this); try discriminate C; [ exact E | ].
  unfold TwilioWhatsAppProvider_parseWebhook, bind at 1.
  destruct (TwilioSmsProvider_parseWebhook rt base this body signature w)
    as [[r | e] w1]; simpl in E; [ | discriminate ].
  inversion E; subst. reflexivity.
Qed.

(** C3. parseWebhook never throws: for every adapter, body, signature
    and world it returns a result, which is either a parsed callback
    (a truthy provider_message_id, a status, a timestamp, no error
    field) or the error result (an error message and status unknown).
    A Twilio callback that fails the signature check, and a callback
    of any adapter whose carrier message id is missing or falsy, get
    the error result. *)
Theorem parseWebhook_never_throws this body signature w :
  exists r,
    fst (parseWebhook rt base this body signature w) = Return r
    /\ (webhook_parsed r \/ webhook_error r)
    /\ (twilio_class (class_of this) = true ->
        fst (verifyWebhookSignature rt this body signature w) = Return false ->
        webhook_error r)
    /\ (JS.truthy (webhook_id rt (class_of this) body) = false ->
        webhook_error r).
Proof.
  destruct (parseWebhook_shape this body signature w) as (r & E & S).
  exists r. split; [ exact E | ]. split; [ | split ].
  - destruct S as [(P & _) | Err]; auto.
  - intros C V.
    rewrite (parseWebhook_rejects_bad_signature this body signature w C V) in E.
    inversion E; subst. eexists; repeat split; reflexivity.
  - intro F. destruct S as [((T & _) & I) | Err]; [ | exact Err ].
    rewrite I in T. congruence.
Qed.

End Webhook.

(* ================================================================== *)
(** ** The factory: decryptCredentials and getProvider *)
(* ================================================================== *)

Lemma add_events_add_events w evs evs' :
  add_events (add_events w evs) evs' = add_events w (evs ++ evs').
Proof. unfold add_events; simpl. now rewrite app_assoc. Qed.

Lemma events_since_add_events w evs : events_since w (add_events w evs) = evs.
Proof. apply events_since_app; reflexivity. Qed.

Lemma encryption_key_add_events w evs :
  encryption_key (add_events w evs) = encryption_key w.
Proof. reflexivity. Qed.

Section Factory.

Variable rt : Platform.
Variable base : MessagingProvider.

(** What [decryptCredentials] computes, case by case. *)
Lemma decryptCredentials_spec data w :
  decryptCredentials rt data w
  = if JS.truthy data
    then match decrypted_json rt (encryption_key w) data with
         | Return credentials =>
             (Return credentials, add_events w [EvDecipher data])
         | Throw e =>
             (Throw (Error "Invalid credentials - decryption failed"),
              add_events w [EvDecipher data;
                            EvLog "Failed to decrypt credentials:"
                                  (VStr (error_message e))])
         end
    else (Return VNull, w).
Proof.
  unfold decryptCredentials. destruct (JS.truthy data); [ | reflexivity ].
  cbn [negb]. unfold bind at 1, process_env. cbv beta iota.
  assert (E : to_js_string rt
                (JS.or match env_lookup "ENCRYPTION_KEY" (env w) with
                       | Some s => VStr s
                       | None => VUndefined
                       end (VStr default_encryption_key))
              = encryption_key w).
  { unfold encryption_key, JS.or.
    destruct (env_lookup "ENCRYPTION_KEY" (env w)) as [s | ]; simpl;
      [ | reflexivity ].
    destruct (s =? ""); reflexivity. }
  rewrite E. clear E.
  unfold try_catch, bind, emit, lift_outcome, JSON_parse_value, decrypted_json,
    console_log, emit, throw, ret.
  destruct (aes_192_cbc_decipher rt (derive_key rt (encryption_key w))
              zero_iv data) as [plaintext | e]; simpl.
  - destruct (JSON_parse rt plaintext) as [v | e]; simpl;
      unfold add_events; simpl; try rewrite <- app_assoc; reflexivity.
  - unfold add_events; simpl; try rewrite <- app_assoc; reflexivity.
Qed.

(** C4. For a tenant flagged demo, [getProvider] returns a Demo
    adapter for whatever channel is asked, and all it does on the way
    is the tenant lookup and the Demo constructor: no credential row is
    read and nothing is decrypted, whatever rows the credential table
    holds. *)
Theorem getProvider_demo_tenant tenantId channel w row :
  tenant_of w tenantId = Some row ->
  JS.truthy (is_demo row) = true ->
  fst (getProvider rt base tenantId channel w)
  = Return {| class_of := DemoProvider; this_tenantId := tenantId;
              this_channel := channel; this_credentials := VObj [];
              this_config := VObj [] |}
  /\ events_since w (snd (getProvider rt base tenantId channel w))
     = [EvQueryTenant tenantId; EvConstruct DemoProvider (VObj [])]
  /\ existsb is_credential_access
       (events_since w (snd (getProvider rt base tenantId channel w)))
     = false.
Proof.
  intros T D. unfold tenant_of in T.
  assert (E : getProvider rt base tenantId channel w
              = (Return {| class_of := DemoProvider; this_tenantId := tenantId;
                           this_channel := channel; this_credentials := VObj [];
                           this_config := VObj [] |},
                 add_events w [EvQueryTenant tenantId;
                               EvConstruct DemoProvider (VObj [])])).
  { unfold getProvider, select_tenant, bind, emit. simpl.
    rewrite T, D. unfold new_DemoProvider, bind, emit, ret, add_events. simpl.
    rewrite <- app_assoc. reflexivity. }
  rewrite E. simpl. rewrite events_since_add_events. auto.
Qed.

(** [getProvider] for a tenant that is not demo and has a credential
    row: the two lookups, then decryption, config and dispatch. *)
Lemma getProvider_configured tenantId channel w trow crow :
  tenant_of w tenantId = Some trow ->
  JS.truthy (is_demo trow) = false ->
  credentials_of w tenantId channel = Some crow ->
  getProvider rt base tenantId channel w
  = match decryptCredentials rt (credentials_json_encrypted crow)
            (add_events w [EvQueryTenant tenantId;
                           EvQueryCredentials tenantId channel]) with
    | (Throw e, w') => (Throw e, w')
    | (Return decrypted, w') =>
        match config_value rt crow with
        | Throw e => (Throw e, w')
        | Return config =>
            match dispatch_class (provider crow) channel with
            | Some c => construct rt base c tenantId channel decrypted config w'
            | None =>
                (Throw (Error (unsupported_message (provider crow) channel)), w')
            end
        end
    end.
Proof.
  intros T D C. unfold tenant_of in T. unfold credentials_of in C.
  unfold getProvider, select_tenant, select_credentials.
  unfold bind at 1. unfold bind at 1. unfold emit at 1. cbn [fst snd tenants].
  rewrite T. cbv beta iota. rewrite D. cbv iota.
  unfold bind at 1. unfold bind at 1. unfold emit at 1.
  cbn [fst snd tenant_channel_credentials_v2].
  rewrite C. cbv beta iota.
  unfold bind at 1.
  cbn [clock env tenants tenant_channel_credentials_v2 ledger trace].
  replace {| clock := clock w; env := env w; tenants := tenants w;
             tenant_channel_credentials_v2 := tenant_channel_credentials_v2 w;
             ledger := ledger w;
             trace := ((trace w ++ [EvQueryTenant tenantId])
                       ++ [EvQueryCredentials tenantId channel])%list |}
    with (add_events w [EvQueryTenant tenantId;
                        EvQueryCredentials tenantId channel])
    by (unfold add_events; rewrite <- app_assoc; reflexivity).
  destruct (decryptCredentials rt (credentials_json_encrypted crow)
              (add_events w [EvQueryTenant tenantId;
                             EvQueryCredentials tenantId channel]))
    as [[decrypted | e] w']; [ | reflexivity ].
  unfold bind at 1, config_value, JSON_parse_value, lift_outcome.
  destruct (JS.truthy (provider_config_json crow)).
  - destruct (JSON_parse rt (to_js_string rt (provider_config_json crow)))
      as [config | e]; [ | reflexivity ].
    unfold ret at 1. unfold dispatch_class, unsupported_message, construct.
    destruct (provider crow =? "twilio");
      [ destruct (channel =? "sms"); [ reflexivity | ];
        destruct (channel =? "whatsapp"); reflexivity | ].
    destruct (provider crow =? "aws_ses"); [ | reflexivity ].
    destruct (channel =? "email"); reflexivity.
  - unfold ret at 1. unfold dispatch_class, unsupported_message, construct.
    destruct (provider crow =? "twilio");
      [ destruct (channel =? "sms"); [ reflexivity | ];
        destruct (channel =? "whatsapp"); reflexivity | ].
    destruct (provider crow =? "aws_ses"); [ | reflexivity ].
    destruct (channel =? "email"); reflexivity.
Qed.

(** C7. For a blob that is not empty, [decryptCredentials] deciphers it
    with AES-192-CBC under the first 24 bytes of the SHA-256 digest of
    the configured key string and an IV of 16 zero bytes, and parses
    the plaintext as JSON. It returns exactly what the parse yields;
    when the decipher or the parse fails it throws the one error
    'Invalid credentials - decryption failed' and returns nothing. *)
Theorem decryptCredentials_typed_error data w :
  JS.truthy data = true ->
  match aes_192_cbc_decipher rt (firstn 24 (sha256 rt (encryption_key w)))
          (repeat Byte.x00 16) data with
  | Return plaintext =>
      match JSON_parse rt plaintext with
      | Return credentials =>
          fst (decryptCredentials rt data w) = Return credentials
      | Throw _ =>
          fst (decryptCredentials rt data w)
          = Throw (Error "Invalid credentials - decryption failed")
      end
  | Throw _ =>
      fst (decryptCredentials rt data w)
      = Throw (Error "Invalid credentials - decryption failed")
  end.
Proof.
  intro T. rewrite decryptCredentials_spec, T.
  unfold decrypted_json, derive_key, zero_iv.
  destruct (aes_192_cbc_decipher rt (firstn 24 (sha256 rt (encryption_key w)))
              (repeat Byte.x00 16) data) as [plaintext | e];
    [ | reflexivity ].
  destruct (JSON_parse rt plaintext); reflexivity.
Qed.



End Factory.

#[export] Hint Resolve frame_logError frame_console_log frame_JSON_parse_value
  frame_verifyWebhookSignature frame_decryptCredentials : frame.

(* ================================================================== *)
(** ** Two runs of one computation at two times *)
(* ================================================================== *)

Section Related.

Variables t1 t2 : Z.

Lemma related_ret {A} (R : A -> A -> Prop) (a b : A) :
  R a b -> related t1 t2 R (ret a) (ret b).
Proof. intros H w1 w2 _ _; exact H. Qed.

Lemma related_throw {A} (R : A -> A -> Prop) (e : exn) :
  related t1 t2 R (throw e) (throw e).
Proof. intros w1 w2 _ _; reflexivity. Qed.

Lemma related_bind {A B} (P : A -> A -> Prop) (R : B -> B -> Prop)
    (m1 m2 : M A) (k1 k2 : A -> M B) :
  related t1 t2 P m1 m2 -> frame m1 -> frame m2 ->
  (forall a b, P a b -> related t1 t2 R (k1 a) (k2 b)) ->
  related t1 t2 R (bind m1 k1) (bind m2 k2).
Proof.
  intros Hm F1 F2 Hk w1 w2 C1 C2. unfold bind.
  specialize (Hm w1 w2 C1 C2). specialize (F1 w1). specialize (F2 w2).
  destruct (m1 w1) as [[a | e1] w1'], (m2 w2) as [[b | e2] w2'];
    simpl in *; try contradiction; auto.
  destruct F1 as (K1 & _), F2 as (K2 & _).
  apply Hk; congruence.
Qed.

Lemma related_try_catch {A} (R : A -> A -> Prop)
    (b1 b2 : M A) (h1 h2 : exn -> M A) :
  related t1 t2 R b1 b2 -> frame b1 -> frame b2 ->
  (forall e, related t1 t2 R (h1 e) (h2 e)) ->
  related t1 t2 R (try_catch b1 h1) (try_catch b2 h2).
Proof.
  intros Hb F1 F2 Hh w1 w2 C1 C2. unfold try_catch.
  specialize (Hb w1 w2 C1 C2). specialize (F1 w1). specialize (F2 w2).
  destruct (b1 w1) as [[a | e1] w1'], (b2 w2) as [[b | e2] w2'];
    simpl in *; try contradiction; auto.
  destruct F1 as (K1 & _), F2 as (K2 & _). subst e2.
  apply Hh; congruence.
Qed.

Lemma related_get v k :
  related t1 t2
    (fun a b => a = b /\ a = JS.prop v k /\ JS.nullish v = false)
    (get v k) (get v k).
Proof.
  intros w1 w2 _ _. unfold get.
  destruct (JS.nullish v); simpl; auto.
Qed.

Lemma related_lift_outcome {A} (o : outcome A) :
  related t1 t2 eq (lift_outcome o) (lift_outcome o).
Proof. intros w1 w2 _ _. destruct o; reflexivity. Qed.

Lemma related_emit e1 e2 : related t1 t2 eq (emit e1) (emit e2).
Proof. intros w1 w2 _ _; reflexivity. Qed.

Lemma related_Date_now :
  related t1 t2 (fun a b => a = t1 /\ b = t2) Date_now Date_now.
Proof. intros w1 w2 C1 C2; simpl; auto. Qed.

Lemma related_weaken {A} (P R : A -> A -> Prop) (m1 m2 : M A) :
  related t1 t2 P m1 m2 -> (forall a b, P a b -> R a b) ->
  related t1 t2 R m1 m2.
Proof.
  intros H I w1 w2 C1 C2. specialize (H w1 w2 C1 C2).
  destruct (fst (m1 w1)), (fst (m2 w2)); simpl in *; auto.
Qed.

End Related.

(** One step of a proof that two runs agree: the same statement on both
    sides. *)
Ltac related_step :=
  match goal with
  | |- related _ _ _ (bind (get _ _) _) (bind (get _ _) _) =>
      eapply related_bind;
      [ apply related_get | auto with frame | auto with frame
      | intros ? ? (<- & -> & ?) ]
  | |- related _ _ _ (bind Date_now _) (bind Date_now _) =>
      eapply related_bind;
      [ apply related_Date_now | auto with frame | auto with frame
      | intros ? ? (-> & ->) ]
  | |- related _ _ _ (bind (lift_outcome _) _) (bind (lift_outcome _) _) =>
      eapply related_bind;
      [ apply related_lift_outcome | auto with frame | auto with frame
      | intros ? ? <- ]
  | |- related _ _ _ (bind (emit _) _) (bind (emit _) _) =>
      eapply related_bind;
      [ apply related_emit | auto with frame | auto with frame
      | intros ? ? _ ]
  | |- related _ _ _ (throw _) (throw _) => apply related_throw
  | |- related _ _ _ (ret _) (ret _) => apply related_ret
  | |- related _ _ _ (if ?b then _ else _) (if ?b then _ else _) =>
      destruct b eqn:?
  | |- related _ _ _ (lift_outcome _) (lift_outcome _) =>
      apply related_lift_outcome
  end.

Section Repeat.

Variable rt : Platform.
Variable base : MessagingProvider.
Variables t1 t2 : Z.

Lemma related_verifyWebhookSignature this body signature :
  related t1 t2 eq (verifyWebhookSignature rt this body signature)
                   (verifyWebhookSignature rt this body signature).
Proof.
  unfold verifyWebhookSignature, console_log.
  apply related_try_catch; [ | frame_auto | frame_auto | ].
  - repeat related_step.
  - intro e. repeat related_step. reflexivity.
Qed.

Lemma related_TwilioSmsProvider_parseWebhook this body signature :
  related t1 t2 (same_but_timestamp (t1 = t2))
    (TwilioSmsProvider_parseWebhook rt base this body signature)
    (TwilioSmsProvider_parseWebhook rt base this body signature).
Proof.
  unfold TwilioSmsProvider_parseWebhook, logError.
  apply related_try_catch; [ | frame_auto | frame_auto | ].
  - eapply related_bind;
      [ apply related_verifyWebhookSignature | auto with frame
      | auto with frame | intros ok ? <- ].
    repeat related_step.
    split; [ reflexivity | intros ->; reflexivity ].
  - intro e. repeat related_step. split; auto.
Qed.

(** The WhatsApp adapter returns its parent's result unchanged. *)
Lemma TwilioWhatsAppProvider_parseWebhook_parent this body signature w :
  TwilioWhatsAppProvider_parseWebhook rt base this body signature w
  = TwilioSmsProvider_parseWebhook rt base this body signature w.
Proof.
  unfold TwilioWhatsAppProvider_parseWebhook, bind at 1.
  destruct (TwilioSmsProvider_parseWebhook_shape rt base this body signature w)
    as (r & E & S).
  destruct (TwilioSmsProvider_parseWebhook rt base this body signature w)
    as [[r' | e] w']; simpl in E; [ | discriminate ].
  inversion E; subst r'.
  assert (N : JS.nullish r = false).
  { destruct S as [((T & _) & _) | (msg & X & _)].
    - eapply prop_truthy_not_nullish; exact T.
    - eapply prop_string_not_nullish; exact X. }
  unfold bind, get. rewrite N. unfold ret.
  destruct (JS.truthy (JS.prop r "error")); reflexivity.
Qed.

Lemma related_DemoProvider_parseWebhook this body signature :
  related t1 t2
    (same_but_timestamp
       (t1 = t2 \/ JS.truthy (get_opt body "timestamp") = true))
    (DemoProvider_parseWebhook rt base this body signature)
    (DemoProvider_parseWebhook rt base this body signature).
Proof.
  unfold DemoProvider_parseWebhook, console_log.
  apply related_try_catch; [ | frame_auto | frame_auto | ].
  - repeat related_step.
    eapply related_bind
      with (P := fun a b =>
                   t1 = t2 \/ JS.truthy (JS.prop body "timestamp") = true ->
                   a = b); [ | frame_auto | frame_auto | ].
    + destruct (JS.truthy (JS.prop body "timestamp")); repeat related_step.
      * reflexivity.
      * intros [-> | F]; [ reflexivity | discriminate F ].
    + intros x y P. apply related_ret. split; [ reflexivity | ].
      unfold get_opt.
      match goal with N : JS.nullish body = false |- _ => rewrite N end.
      intro C. rewrite (P C). reflexivity.
  - intro e. repeat related_step. split; auto.
Qed.

Lemma related_ses_unwrap body :
  related t1 t2 (fun a b => a = b /\ ses_event_of rt body = Return a)
    (ses_unwrap rt body) (ses_unwrap rt body).
Proof.
  intros w1 w2 _ _. rewrite !ses_unwrap_event. simpl.
  destruct (ses_event_of rt body); simpl; auto.
Qed.

Lemma frame_ses_unwrap body : frame (ses_unwrap rt body).
Proof. intro w. rewrite ses_unwrap_event. apply extends_refl. Qed.

Lemma frame_ses_timestamp event : frame (ses_timestamp rt event).
Proof. unfold ses_timestamp. frame_auto. Qed.

Lemma related_ses_timestamp event :
  related t1 t2
    (fun a b =>
       t1 = t2
       \/ JS.truthy
            (JS.or (get_opt (get_opt event "delivery") "timestamp")
               (JS.or (get_opt (get_opt event "bounce") "timestamp")
                      (get_opt (get_opt event "complaint") "timestamp")))
          = true ->
       a = b)
    (ses_timestamp rt event) (ses_timestamp rt event).
Proof.
  unfold ses_timestamp.
  repeat related_step; try (intros _; reflexivity).
  intros [-> | F]; [ reflexivity | ].
  exfalso.
  assert (G : forall k, get_opt event k = JS.prop event k).
  { intro k. unfold get_opt.
    match goal with N : JS.nullish event = false |- _ => now rewrite N end. }
  rewrite !G in F. unfold JS.or in F.
  repeat match goal with
         | H : JS.truthy _ = false |- _ => rewrite H in F; cbv iota in F
         end.
  discriminate F.
Qed.

Lemma related_SESEmailProvider_parseWebhook this body signature :
  related t1 t2
    (same_but_timestamp
       (t1 = t2
        \/ JS.truthy (payload_timestamp rt SESEmailProvider body) = true))
    (SESEmailProvider_parseWebhook rt base this body signature)
    (SESEmailProvider_parseWebhook rt base this body signature).
Proof.
  pose proof frame_ses_unwrap. pose proof frame_ses_timestamp.
  unfold SESEmailProvider_parseWebhook, logError.
  apply related_try_catch; [ | frame_auto | frame_auto | ].
  - eapply related_bind;
      [ apply related_ses_unwrap | auto with frame | auto with frame
      | intros event ? (<- & Ev) ].
    related_step.
    eapply related_bind with (P := eq); [ | frame_auto | frame_auto | ].
    { repeat related_step; reflexivity. }
    intros valid ? <-.
    repeat related_step.
    eapply related_bind;
      [ apply related_ses_timestamp | auto with frame | auto with frame
      | intros ts ts' P ].
    repeat related_step.
    split; [ reflexivity | ].
    unfold payload_timestamp. rewrite Ev.
    intro C. rewrite (P C). reflexivity.
  - intro e. repeat related_step. split; auto.
Qed.

Lemma related_parseWebhook this body signature :
  related t1 t2
    (same_but_timestamp
       (t1 = t2
        \/ JS.truthy (payload_timestamp rt (class_of this) body) = true))
    (parseWebhook rt base this body signature)
    (parseWebhook rt base this body signature).
Proof.
  unfold parseWebhook. destruct (class_of this).
  - eapply related_weaken;
      [ apply related_TwilioSmsProvider_parseWebhook | ].
    intros a b (W & E). split; [ exact W | ].
    intros [C | F]; [ auto | discriminate F ].
  - intros w1 w2 C1 C2.
    rewrite !TwilioWhatsAppProvider_parseWebhook_parent.
    revert w1 w2 C1 C2. eapply related_weaken;
      [ apply related_TwilioSmsProvider_parseWebhook | ].
    intros a b (W & E). split; [ exact W | ].
    intros [C | F]; [ auto | discriminate F ].
  - apply related_SESEmailProvider_parseWebhook.
  - apply related_DemoProvider_parseWebhook.
Qed.

End Repeat.

Section Repeatable.

Variable rt : Platform.
Variable base : MessagingProvider.


End Repeatable.

(* ================================================================== *)
(** ** The SES event mapping *)
(* ================================================================== *)

Lemma bind_get {A} v k (f : value -> M A) w :
  JS.nullish v = false -> bind (get v k) f w = f (JS.prop v k) w.
Proof. intro N. unfold bind, get. rewrite N. reflexivity. Qed.

Lemma falsy_has_no_fields v k : JS.truthy v = false -> get_opt v k = VUndefined.
Proof.
  destruct v; simpl; intro H; try discriminate; unfold get_opt; simpl;
    try reflexivity.
Qed.

Lemma truthy_not_nullish v : JS.truthy v = true -> JS.nullish v = false.
Proof. destruct v; simpl; intro H; try discriminate; reflexivity. Qed.

Lemma ses_event_status_normalized eventType :
  In (ses_event_status eventType) normalized_names.
Proof.
  unfold ses_event_status, normalized_names.
  repeat match goal with
         | |- context [if ?b then _ else _] => destruct b
         end; simpl; auto 10.
Qed.

Section SesEvents.

Variable rt : Platform.
Variable base : MessagingProvider.

Lemma ses_timestamp_returns event w :
  JS.nullish event = false ->
  exists ts, ses_timestamp rt event w = (Return ts, w).
Proof.
  intro N. unfold ses_timestamp.
  rewrite bind_get by exact N.
  destruct (JS.truthy (get_opt (JS.prop event "delivery") "timestamp"));
    [ eexists; reflexivity | ].
  rewrite bind_get by exact N.
  destruct (JS.truthy (get_opt (JS.prop event "bounce") "timestamp"));
    [ eexists; reflexivity | ].
  rewrite bind_get by exact N.
  destruct (JS.truthy (get_opt (JS.prop event "complaint") "timestamp"));
    eexists; reflexivity.
Qed.

(** What parseWebhook answers on an event, the envelope removed. *)
Lemma SESEmailProvider_parseWebhook_on_event this body signature w :
  fixes_normalized_names base ->
  match ses_event_of rt body with
  | Return event =>
      if JS.truthy (get_opt (get_opt event "mail") "messageId")
      then exists timestamp,
        fst (SESEmailProvider_parseWebhook rt base this body signature w)
        = Return
            (VObj [("provider_message_id",
                    get_opt (get_opt event "mail") "messageId");
                   ("status",
                    VStr (ses_event_status (get_opt event "eventType")));
                   ("timestamp", timestamp);
                   ("event_type", get_opt event "eventType");
                   ("raw", event)])
      else exists msg,
        fst (SESEmailProvider_parseWebhook rt base this body signature w)
        = Return (VObj [("error", VStr msg); ("status", VStr "unknown")])
  | Throw e =>
      fst (SESEmailProvider_parseWebhook rt base this body signature w)
      = Return (VObj [("error", VStr (error_message e));
                      ("status", VStr "unknown")])
  end.
Proof.
  intro Fix.
  remember (fst (SESEmailProvider_parseWebhook rt base this body signature w))
    as out eqn:Out.
  unfold SESEmailProvider_parseWebhook, try_catch in Out.
  unfold bind at 1 in Out. rewrite ses_unwrap_event in Out.
  destruct (ses_event_of rt body) as [event | e]; [ | exact Out ].
  destruct (JS.nullish event) eqn:N.
  { unfold get_opt at 2. rewrite N. cbn [get_opt JS.nullish JS.truthy].
    unfold bind at 1, get at 1 in Out. rewrite N in Out.
    eexists; exact Out. }
  assert (G : forall k, get_opt event k = JS.prop event k)
    by (intro k; unfold get_opt; now rewrite N).
  rewrite !G.
  rewrite bind_get in Out by exact N.
  destruct (JS.truthy (JS.prop event "mail")) eqn:Tm.
  - pose proof (truthy_not_nullish _ Tm) as Nm.
    unfold get_opt. rewrite Nm.
    unfold bind at 1 in Out. cbn [negb] in Out.
    rewrite bind_get in Out by exact Nm.
    unfold ret at 1 in Out.
    destruct (JS.truthy (JS.prop (JS.prop event "mail") "messageId")) eqn:Ti;
      cbn [negb] in Out; [ | eexists; exact Out ].
    rewrite bind_get in Out by exact Nm.
    rewrite bind_get in Out by exact N.
    unfold bind at 1 in Out.
    destruct (ses_timestamp_returns event w N) as (ts & T).
    rewrite T in Out.
    rewrite (Fix _ (ses_event_status_normalized (JS.prop event "eventType")))
      in Out.
    subst out. eexists; reflexivity.
  - rewrite (falsy_has_no_fields _ "messageId" Tm). cbn [JS.truthy].
    unfold bind at 1 in Out. cbn [negb] in Out. eexists; exact Out.
Qed.

(** C6. parseWebhook of the SES adapter first removes the SNS
    envelope: a body whose Type is 'Notification' and whose Message is
    truthy is replaced by the JSON parse of Message, any other body is
    the event itself. On the event, Send maps to sent, Delivery to
    delivered, Bounce and Complaint to failed, Open and Click to read
    and every other event type to unknown, given a base class whose
    normalizeStatus keeps the five normalized names. An event without
    a mail message id, like a body that cannot be unwrapped, gets the
    error result with status unknown. *)
Theorem SESEmailProvider_parseWebhook_mapping this body signature w :
  fixes_normalized_names base ->
  (* the envelope *)
  fst (ses_unwrap rt body w) = ses_event_of rt body
  /\ (JS.nullish body = false ->
      ses_event_of rt body
      = if JS.is_str (JS.prop body "Type") "Notification"
           && JS.truthy (JS.prop body "Message")
        then JSON_parse rt (to_js_string rt (JS.prop body "Message"))
        else Return body)
  (* the table *)
  /\ ses_event_status (VStr "Send") = "sent"
  /\ ses_event_status (VStr "Delivery") = "delivered"
  /\ ses_event_status (VStr "Bounce") = "failed"
  /\ ses_event_status (VStr "Complaint") = "failed"
  /\ ses_event_status (VStr "Open") = "read"
  /\ ses_event_status (VStr "Click") = "read"
  /\ (forall t,
         ~ In t (map VStr ["Send"; "Delivery"; "Bounce"; "Complaint";
                           "Open"; "Click"]) ->
         ses_event_status t = "unknown")
  (* the result *)
  /\ match ses_event_of rt body with
     | Return event =>
         if JS.truthy (get_opt (get_opt event "mail") "messageId")
         then exists r,
           fst (SESEmailProvider_parseWebhook rt base this body signature w)
           = Return r
           /\ JS.prop r "provider_message_id"
              = get_opt (get_opt event "mail") "messageId"
           /\ JS.prop r "status"
              = VStr (ses_event_status (get_opt event "eventType"))
           /\ JS.prop r "event_type" = get_opt event "eventType"
           /\ JS.prop r "raw" = event
           /\ JS.has_field r "error" = false
         else exists msg,
           fst (SESEmailProvider_parseWebhook rt base this body signature w)
           = Return (VObj [("error", VStr msg); ("status", VStr "unknown")])
     | Throw e =>
         fst (SESEmailProvider_parseWebhook rt base this body signature w)
         = Return (VObj [("error", VStr (error_message e));
                         ("status", VStr "unknown")])
     end.
Proof.
  intro Fix.
  split; [ rewrite ses_unwrap_event; reflexivity | ].
  split; [ intro N; unfold ses_event_of; rewrite N; reflexivity | ].
  do 6 (split; [ reflexivity | ]).
  split.
  { intros t NI. unfold ses_event_status, JS.is_str.
    destruct t as [ | | b | n | s | d | l | fs ]; try reflexivity.
    repeat match goal with
           | |- context [if (s =? ?lit) then _ else _] =>
               destruct (String.eqb_spec s lit);
               [ exfalso; apply NI; subst s; simpl; tauto | ]
           end.
    reflexivity. }
  pose proof (SESEmailProvider_parseWebhook_on_event this body signature w Fix)
    as H.
  destruct (ses_event_of rt body) as [event | e]; [ | exact H ].
  destruct (JS.truthy (get_opt (get_opt event "mail") "messageId"));
    [ | exact H ].
  destruct H as (ts & ->). eexists; repeat split; reflexivity.
Qed.

End SesEvents.

(* ================================================================== *)
(** ** The sender of an SMS *)
(* ================================================================== *)

(** Case analysis on the innermost test of the goal. *)
Ltac split_scrutinee :=
  match goal with
  | |- context [if ?b then _ else _] =>
      lazymatch b with
      | context [if _ then _ else _] => fail
      | context [match _ with _ => _ end] => fail
      | _ => destruct b eqn:?
      end
  | |- context [match ?x with _ => _ end] =>
      lazymatch x with
      | context [if _ then _ else _] => fail
      | context [match _ with _ => _ end] => fail
      | _ => destruct x eqn:?
      end
  end.

Section SmsSender.

Variable rt : Platform.

(** The validation of TwilioSmsProvider.send, on a message and a
    config that are objects: the from-number (message override, then
    the tenant's number) is required first, then the recipient; only
    then is the carrier called, once. A messaging-service sid plays
    no part in the two checks. *)
Lemma TwilioSmsProvider_send_validation this message w :
  JS.nullish message = false ->
  JS.nullish (this_config this) = false ->
  if negb (JS.truthy (JS.or (JS.prop message "from_number")
                            (JS.prop (this_config this) "phone_number")))
  then
    TwilioSmsProvider_send rt this message w
    = (Return (VObj [("success", VBool false);
                     ("error", VStr "No phone number configured for tenant");
                     ("provider", VStr "twilio")]),
       add_events w
         [EvLog "SMS send: No phone number configured for tenant"
                (VObj [("phone_number", JS.prop message "phone_number")])])
  else if negb (JS.truthy (JS.prop message "phone_number"))
  then
    TwilioSmsProvider_send rt this message w
    = (Return (VObj [("success", VBool false);
                     ("error", VStr "Recipient phone number missing");
                     ("provider", VStr "twilio")]),
       add_events w
         [EvLog "SMS send: Recipient phone number missing"
                (VObj [("phone_number", JS.prop message "phone_number")])])
  else
    existsb is_carrier_call
      (events_since w (snd (TwilioSmsProvider_send rt this message w)))
    = true.
Proof.
  intros Nm Nc.
  unfold TwilioSmsProvider_send, try_catch, destructure,
    client_messages_create, logError, console_log, bind, get, process_env,
    lift_outcome, emit, ret, throw, JS.or.
  rewrite Nm, Nc.
  repeat (split_scrutinee; cbn [negb fst snd] in * );
    try discriminate; try reflexivity.
  all: unfold events_since; cbn [trace fst snd].
  all: rewrite <- ?app_assoc, skipn_app, skipn_all, Nat.sub_diag.
  all: reflexivity.
Qed.

(** C5, where the code departs from it. A message with a recipient
    and no from-number, sent for a tenant with no phone number
    configured, is answered 'No phone number configured for tenant'
    without a call to the carrier, whatever messaging-service sid the
    tenant's config or the environment holds: a pooled sender that
    resolves does not make the sender resolvable. *)
Theorem TwilioSmsProvider_send_pooled_sender_rejected this message w :
  JS.nullish message = false ->
  JS.nullish (this_config this) = false ->
  JS.truthy (JS.prop message "phone_number") = true ->
  JS.truthy (JS.prop message "from_number") = false ->
  JS.truthy (JS.prop (this_config this) "phone_number") = false ->
  TwilioSmsProvider_send rt this message w
  = (Return (VObj [("success", VBool false);
                   ("error", VStr "No phone number configured for tenant");
                   ("provider", VStr "twilio")]),
     add_events w
       [EvLog "SMS send: No phone number configured for tenant"
              (VObj [("phone_number", JS.prop message "phone_number")])])
  /\ existsb is_carrier_call
       (events_since w (snd (TwilioSmsProvider_send rt this message w)))
     = false.
Proof.
  intros Nm Nc _ Tf Tc.
  pose proof (TwilioSmsProvider_send_validation this message w Nm Nc) as V.
  unfold JS.or in V. rewrite Tf, Tc in V. cbn [negb] in V.
  split; [ exact V | ].
  rewrite V. cbn [snd]. rewrite events_since_add_events. reflexivity.
Qed.

End SmsSender.

(* ================================================================== *)
(** ** The statements at concrete inputs *)
(* ================================================================== *)

Lemma spec_MessagingProvider_fixes_normalized_names :
  fixes_normalized_names spec_MessagingProvider.
Proof.
  intros s H. simpl in H.
  repeat (destruct H as [<- | H]; [ reflexivity | ]). contradiction.
Qed.

(** The spec's first scenario: tenant T resolves to the Twilio SMS
    adapter with the decrypted credentials and the stored config. *)
Example getProvider_tenant_T_sms :
  fst (getProvider Sample.platform spec_MessagingProvider "T" "sms"
         Sample.db_world)
  = Return Sample.twilio_sms.
Proof. vm_compute. reflexivity. Qed.

(** C3 at a forged signature and at a callback without MessageSid. *)
Lemma parseWebhook_never_throws_witness :
  (exists r,
      fst (parseWebhook Sample.platform spec_MessagingProvider Sample.twilio_sms
             Sample.delivered_callback (VStr "forged") Sample.world0) = Return r
      /\ webhook_error r)
  /\ (exists r,
         fst (parseWebhook Sample.platform spec_MessagingProvider
                Sample.twilio_sms (VObj [("MessageStatus", VStr "delivered")])
                (VStr Sample.good_signature) Sample.world0) = Return r
         /\ webhook_error r).
Proof.
  split.
  - destruct (parseWebhook_never_throws Sample.platform spec_MessagingProvider
                Sample.twilio_sms Sample.delivered_callback (VStr "forged")
                Sample.world0) as (r & E & _ & A & _).
    exists r. split; [ exact E | apply A; reflexivity ].
  - destruct (parseWebhook_never_throws Sample.platform spec_MessagingProvider
                Sample.twilio_sms (VObj [("MessageStatus", VStr "delivered")])
                (VStr Sample.good_signature) Sample.world0)
      as (r & E & _ & _ & I).
    exists r. split; [ exact E | apply I; reflexivity ].
Defined.

(** C4 at the demo tenant D, which has a Twilio row with a blob that
    does not decrypt. *)
Lemma getProvider_demo_tenant_witness :
  fst (getProvider Sample.platform spec_MessagingProvider "D" "sms"
         Sample.db_world)
  = Return Sample.demo_sms
  /\ events_since Sample.db_world
       (snd (getProvider Sample.platform spec_MessagingProvider "D" "sms"
               Sample.db_world))
     = [EvQueryTenant "D"; EvConstruct DemoProvider (VObj [])]
  /\ existsb is_credential_access
       (events_since Sample.db_world
          (snd (getProvider Sample.platform spec_MessagingProvider "D" "sms"
                  Sample.db_world)))
     = false.
Proof.
  exact (getProvider_demo_tenant Sample.platform spec_MessagingProvider
           "D" "sms" Sample.db_world
           {| tenant_id := "D"; is_demo := VNum 1 |} eq_refl eq_refl).
Defined.

(** C6 at the spec's scenario: a Bounce for message E1 inside an SNS
    envelope. *)
Lemma SESEmailProvider_parseWebhook_mapping_witness :
  exists r,
    fst (SESEmailProvider_parseWebhook Sample.platform spec_MessagingProvider
           Sample.ses_email Sample.bounce_notification VUndefined Sample.world0)
    = Return r
    /\ JS.prop r "provider_message_id" = VStr "E1"
    /\ JS.prop r "status" = VStr "failed"
    /\ JS.prop r "event_type" = VStr "Bounce".
Proof.
  pose proof (SESEmailProvider_parseWebhook_mapping Sample.platform
                spec_MessagingProvider Sample.ses_email
                Sample.bounce_notification VUndefined Sample.world0
                spec_MessagingProvider_fixes_normalized_names)
    as (_ & _ & _ & _ & _ & _ & _ & _ & _ & H).
  assert (E : ses_event_of Sample.platform Sample.bounce_notification
              = Return (VObj [("eventType", VStr "Bounce");
                              ("mail", VObj [("messageId", VStr "E1")])]))
    by (vm_compute; reflexivity).
  rewrite E in H. cbv beta iota in H.
  change (JS.truthy
            (get_opt
               (get_opt
                  (VObj [("eventType", VStr "Bounce");
                         ("mail", VObj [("messageId", VStr "E1")])]) "mail")
               "messageId")) with true in H.
  cbv iota in H.
  destruct H as (r & R & I & S & T & _).
  exists r. repeat split; assumption.
Defined.

(** C7 at the stored Twilio blob, which decrypts to the credentials
    object, and at a one-byte blob, which does not decrypt. *)
Lemma decryptCredentials_typed_error_witness :
  fst (decryptCredentials Sample.platform (VStr Sample.twilio_blob)
         Sample.world0)
  = Return (VObj [("accountSid", VStr "AC123"); ("authToken", VStr "secret")])
  /\ fst (decryptCredentials Sample.platform (VStr "00") Sample.world0)
     = Throw (Error "Invalid credentials - decryption failed").
Proof.
  split.
  - exact (decryptCredentials_typed_error Sample.platform
             (VStr Sample.twilio_blob) Sample.world0 eq_refl).
  - exact (decryptCredentials_typed_error Sample.platform
             (VStr "00") Sample.world0 eq_refl).
Defined.






(** C5 at a tenant whose config holds a messaging-service sid and no
    phone number. *)
Lemma TwilioSmsProvider_send_pooled_sender_rejected_witness :
  TwilioSmsProvider_send Sample.platform
    {| class_of := TwilioSmsProvider; this_tenantId := "T";
       this_channel := "sms";
       this_credentials :=
         VObj [("accountSid", VStr "AC123"); ("authToken", VStr "secret")];
       this_config := VObj [("messaging_service_sid", VStr "MG123")] |}
    (VObj [("id", VStr "m1"); ("phone_number", VStr "+15550002222");
           ("content", VStr "hi")])
    Sample.world0
  = (Return (VObj [("success", VBool false);
                   ("error", VStr "No phone number configured for tenant");
                   ("provider", VStr "twilio")]),
     add_events Sample.world0
       [EvLog "SMS send: No phone number configured for tenant"
              (VObj [("phone_number", VStr "+15550002222")])]).
Proof.
  exact (proj1 (TwilioSmsProvider_send_pooled_sender_rejected Sample.platform
                  {| class_of := TwilioSmsProvider; this_tenantId := "T";
                     this_channel := "sms";
                     this_credentials :=
                       VObj [("accountSid", VStr "AC123");
                             ("authToken", VStr "secret")];
                     this_config :=
                       VObj [("messaging_service_sid", VStr "MG123")] |}
                  (VObj [("id", VStr "m1");
                         ("phone_number", VStr "+15550002222");
                         ("content", VStr "hi")])
                  Sample.world0 eq_refl eq_refl eq_refl eq_refl eq_refl)).
Defined.

(* ================================================================== *)
(** ** Outcomes that do not depend on the trace *)
(* ================================================================== *)

Lemma same_inputs_refl w : same_inputs w w.
Proof. unfold same_inputs; auto. Qed.

Lemma same_inputs_trans w1 w2 w3 :
  same_inputs w1 w2 -> same_inputs w2 w3 -> same_inputs w1 w3.
Proof. unfold same_inputs; intuition congruence. Qed.

Lemma extends_same_inputs w w' : extends w w' -> same_inputs w w'.
Proof. unfold extends, same_inputs; intuition congruence. Qed.

Lemma stable_ret {A} (a : A) : stable (ret a).
Proof. intros w1 w2 S; auto. Qed.

Lemma stable_throw {A} (e : exn) : stable (@throw A e).
Proof. intros w1 w2 S; auto. Qed.

Lemma stable_bind {A B} (m : M A) (k : A -> M B) :
  stable m -> (forall a, stable (k a)) -> stable (bind m k).
Proof.
  intros Hm Hk w1 w2 S. unfold bind. destruct (Hm w1 w2 S) as (E & S').
  destruct (m w1) as [[a | e] w1'], (m w2) as [[b | e'] w2'];
    simpl in *; try discriminate; inversion E; subst; auto.
  apply Hk; exact S'.
Qed.

Lemma stable_try_catch {A} (body : M A) (handler : exn -> M A) :
  stable body -> (forall e, stable (handler e)) ->
  stable (try_catch body handler).
Proof.
  intros Hb Hh w1 w2 S. unfold try_catch. destruct (Hb w1 w2 S) as (E & S').
  destruct (body w1) as [[a | e] w1'], (body w2) as [[b | e'] w2'];
    simpl in *; try discriminate; inversion E; subst; auto.
  apply Hh; exact S'.
Qed.

Lemma stable_emit e : stable (emit e).
Proof. intros w1 w2 S; split; [ reflexivity | exact S ]. Qed.

Lemma stable_process_env name : stable (process_env name).
Proof.
  intros w1 w2 S; split; [ | exact S ].
  destruct S as (_ & E & _). unfold process_env; simpl. now rewrite E.
Qed.

Lemma stable_lift_outcome {A} (o : outcome A) : stable (lift_outcome o).
Proof. destruct o; intros w1 w2 S; auto. Qed.

Lemma stable_get v k : stable (get v k).
Proof. unfold get; destruct (JS.nullish v); intros w1 w2 S; auto. Qed.

Lemma stable_select_tenant id : stable (select_tenant id).
Proof.
  intros w1 w2 S. unfold select_tenant, bind, emit; simpl.
  destruct S as (C & E & T & K & L). rewrite T.
  split; [ reflexivity | unfold same_inputs; simpl; auto ].
Qed.

Lemma stable_select_credentials id ch : stable (select_credentials id ch).
Proof.
  intros w1 w2 S. unfold select_credentials, bind, emit; simpl.
  destruct S as (C & E & T & K & L). rewrite K.
  split; [ reflexivity | unfold same_inputs; simpl; auto ].
Qed.

Create HintDb stable.
#[export] Hint Resolve stable_ret stable_throw stable_emit stable_process_env
  stable_lift_outcome stable_get stable_select_tenant
  stable_select_credentials : stable.

Ltac stable_step :=
  match goal with
  | |- stable (bind _ _) => apply stable_bind; [ | intros ]
  | |- stable (try_catch _ _) => apply stable_try_catch; [ | intros ]
  | |- stable (if ?b then _ else _) => destruct b
  | |- stable (match ?x with _ => _ end) => destruct x
  | |- stable _ => solve [ auto with stable ]
  end.

Section FactoryMore.

Variable rt : Platform.
Variable base : MessagingProvider.

Lemma stable_decryptCredentials data : stable (decryptCredentials rt data).
Proof.
  unfold decryptCredentials, console_log, JSON_parse_value.
  repeat stable_step.
Qed.

Lemma stable_getProvider tenantId channel :
  stable (getProvider rt base tenantId channel).
Proof.
  pose proof stable_decryptCredentials.
  unfold getProvider, new_TwilioSmsProvider, new_SESEmailProvider,
    new_DemoProvider, ses_options, JSON_parse_value.
  repeat stable_step.
Qed.

(** One round of the loop of [getAllProviders], in a world that has the
    inputs of [w]. *)
Lemma getAllProviders_from_spec tenantId channels :
  forall providers w w',
    same_inputs w w' ->
    fst (getAllProviders_from rt base tenantId channels providers w')
    = Return (fold_left
                (fun acc channel =>
                   match fst (getProvider rt base tenantId channel w) with
                   | Return p => set_provider channel p acc
                   | Throw _ => acc
                   end) channels providers)
    /\ extends w' (snd (getAllProviders_from rt base tenantId channels
                          providers w')).
Proof.
  induction channels as [ | channel rest IH ]; intros providers w w' S.
  - split; [ reflexivity | apply extends_refl ].
  - cbn [getAllProviders_from fold_left].
    destruct (stable_getProvider tenantId channel w w' S) as (E & _).
    pose proof (frame_getProvider rt base tenantId channel w') as F.
    assert (Step :
      bind (try_catch
              (bind (getProvider rt base tenantId channel)
                    (fun provider => ret (set_provider channel provider providers)))
              (fun error => ret providers))
           (fun providers =>
              getAllProviders_from rt base tenantId rest providers) w'
      = getAllProviders_from rt base tenantId rest
          match fst (getProvider rt base tenantId channel w') with
          | Return p => set_provider channel p providers
          | Throw _ => providers
          end
          (snd (getProvider rt base tenantId channel w'))).
    { unfold bind, try_catch, ret.
      destruct (getProvider rt base tenantId channel w') as [[p | e] w1];
        reflexivity. }
    rewrite Step, <- E.
    assert (S1 : same_inputs w (snd (getProvider rt base tenantId channel w')))
      by (eapply same_inputs_trans;
          [ exact S | apply extends_same_inputs; exact F ]).
    match goal with
    | |- fst (getAllProviders_from _ _ _ _ ?acc _) = _ /\ _ =>
        destruct (IH acc w _ S1) as (R & X)
    end.
    split; [ exact R | eapply extends_trans; [ exact F | exact X ] ].
Qed.

(** The two failed lookups of [getProvider]. *)
Lemma getProvider_lookup_fails tenantId channel w :
  (tenant_of w tenantId = None ->
   getProvider rt base tenantId channel w
   = (Throw (Error ("Tenant not found: " ++ tenantId)),
      add_events w [EvQueryTenant tenantId]))
  /\ (forall trow,
         tenant_of w tenantId = Some trow ->
         JS.truthy (is_demo trow) = false ->
         credentials_of w tenantId channel = None ->
         getProvider rt base tenantId channel w
         = (Throw (Error ("No provider configured for tenant " ++ tenantId
                          ++ ", channel " ++ channel)),
            add_events w [EvQueryTenant tenantId;
                          EvQueryCredentials tenantId channel])).
Proof.
  unfold tenant_of, credentials_of. split.
  - intro T. unfold getProvider, select_tenant, bind, emit. simpl.
    rewrite T. reflexivity.
  - intros trow T D C.
    unfold getProvider, select_tenant, select_credentials, bind, emit. simpl.
    rewrite T, D. simpl. rewrite C. unfold throw, add_events. simpl.
    rewrite <- app_assoc. reflexivity.
Qed.

(** X1. For a tenant id with no row in the tenants table [getProvider]
    throws 'Tenant not found: <id>' right after the tenant lookup: the
    credential table is not read, nothing is deciphered and no adapter
    is constructed. *)
Theorem getProvider_unknown_tenant tenantId channel w :
  tenant_of w tenantId = None ->
  fst (getProvider rt base tenantId channel w)
  = Throw (Error ("Tenant not found: " ++ tenantId))
  /\ events_since w (snd (getProvider rt base tenantId channel w))
     = [EvQueryTenant tenantId].
Proof.
  intro T. destruct (getProvider_lookup_fails tenantId channel w) as (H & _).
  rewrite (H T). cbn [fst snd]. now rewrite events_since_add_events.
Qed.

(** X2. For a tenant that is not demo and has no credential row for the
    channel [getProvider] throws 'No provider configured for tenant
    <id>, channel <channel>' after the two lookups, before any
    decryption or construction. *)
Theorem getProvider_channel_not_configured tenantId channel w trow :
  tenant_of w tenantId = Some trow ->
  JS.truthy (is_demo trow) = false ->
  credentials_of w tenantId channel = None ->
  fst (getProvider rt base tenantId channel w)
  = Throw (Error ("No provider configured for tenant " ++ tenantId
                  ++ ", channel " ++ channel))
  /\ events_since w (snd (getProvider rt base tenantId channel w))
     = [EvQueryTenant tenantId; EvQueryCredentials tenantId channel].
Proof.
  intros T D C.
  destruct (getProvider_lookup_fails tenantId channel w) as (_ & H).
  rewrite (H trow T D C). cbn [fst snd]. now rewrite events_since_add_events.
Qed.

(** X3. For a tenant that is not demo, a credential row whose provider
    and channel are no pair of the dispatch (twilio with sms or
    whatsapp, aws_ses with email) makes [getProvider] throw without
    running any constructor; when the row's blob and config are usable
    the error names the pair: 'Twilio does not support channel: c',
    'AWS SES does not support channel: c' or 'Unknown provider: p'. *)
Theorem getProvider_unsupported_pair tenantId channel w trow crow :
  tenant_of w tenantId = Some trow ->
  JS.truthy (is_demo trow) = false ->
  credentials_of w tenantId channel = Some crow ->
  dispatch_class (provider crow) channel = None ->
  exists e,
    fst (getProvider rt base tenantId channel w) = Throw e
    /\ existsb is_construct
         (events_since w (snd (getProvider rt base tenantId channel w)))
       = false
    /\ (credentials_usable rt w crow -> config_usable rt crow ->
        e = Error (unsupported_message (provider crow) channel)).
Proof.
  intros T D C P.
  rewrite (getProvider_configured rt base tenantId channel w trow crow T D C).
  rewrite decryptCredentials_spec, encryption_key_add_events.
  unfold credentials_usable, config_usable, config_value.
  rewrite P.
  destruct (JS.truthy (credentials_json_encrypted crow)) eqn:B.
  - destruct (decrypted_json rt (encryption_key w)
                (credentials_json_encrypted crow)) as [d | e] eqn:J.
    + destruct (JS.truthy (provider_config_json crow)) eqn:G.
      * destruct (JSON_parse rt (to_js_string rt (provider_config_json crow)))
          as [c | e] eqn:K; eexists; cbn [fst snd];
          rewrite add_events_add_events, events_since_add_events;
          (split; [ reflexivity | split; [ reflexivity | ] ]); auto.
        intros _ [F | (c & F)]; congruence.
      * eexists; cbn [fst snd];
          rewrite add_events_add_events, events_since_add_events;
          (split; [ reflexivity | split; [ reflexivity | ] ]); auto.
    + eexists; cbn [fst snd];
        rewrite add_events_add_events, events_since_add_events;
        (split; [ reflexivity | split; [ reflexivity | ] ]); auto.
      intros [F | (d & F)]; congruence.
  - destruct (JS.truthy (provider_config_json crow)) eqn:G.
    + destruct (JSON_parse rt (to_js_string rt (provider_config_json crow)))
        as [c | e] eqn:K; eexists; cbn [fst snd];
        rewrite events_since_add_events;
        (split; [ reflexivity | split; [ reflexivity | ] ]); auto.
      intros _ [F | (c & F)]; congruence.
    + eexists; cbn [fst snd]; rewrite events_since_add_events;
        (split; [ reflexivity | split; [ reflexivity | ] ]); auto.
Qed.

Lemma ensures_construct c tenantId channel credentials config :
  ensures (construct rt base c tenantId channel credentials config)
    (fun p => class_of p = c /\ this_tenantId p = tenantId
              /\ this_channel p = channel
              /\ this_config p = default_object config).
Proof.
  unfold construct, new_TwilioSmsProvider, new_SESEmailProvider,
    new_DemoProvider.
  destruct c; repeat ensures_step; auto.
Qed.

Lemma dispatch_class_supported provider channel c :
  dispatch_class provider channel = Some c ->
  c <> DemoProvider /\ In channel (getSupportedChannels c).
Proof.
  unfold dispatch_class.
  destruct (provider =? "twilio").
  - destruct (String.eqb_spec channel "sms") as [-> | _].
    + intro H; inversion H; subst; split; [ discriminate | simpl; auto ].
    + destruct (String.eqb_spec channel "whatsapp") as [-> | _];
        [ | discriminate ].
      intro H; inversion H; subst; split; [ discriminate | simpl; auto ].
  - destruct (provider =? "aws_ses"); [ | discriminate ].
    destruct (String.eqb_spec channel "email") as [-> | _]; [ | discriminate ].
    intro H; inversion H; subst; split; [ discriminate | simpl; auto ].
Qed.

(** X4. Whatever adapter [getProvider] returns for a tenant that is not
    demo is bound to the tenant and channel asked for, is no Demo
    adapter, and belongs to a class whose getSupportedChannels() lists
    that channel: the dispatch never instantiates a class outside its
    own declaration. *)
Theorem getProvider_adapter_supports_channel tenantId channel w trow p :
  tenant_of w tenantId = Some trow ->
  JS.truthy (is_demo trow) = false ->
  fst (getProvider rt base tenantId channel w) = Return p ->
  this_tenantId p = tenantId
  /\ this_channel p = channel
  /\ class_of p <> DemoProvider
  /\ In channel (getSupportedChannels (class_of p)).
Proof.
  intros T D R.
  destruct (credentials_of w tenantId channel) as [crow | ] eqn:C.
  - rewrite (getProvider_configured rt base tenantId channel w trow crow T D C)
      in R.
    destruct (decryptCredentials rt (credentials_json_encrypted crow) _)
      as [[decrypted | e] w1]; [ | discriminate R ].
    destruct (config_value rt crow) as [config | e]; [ | discriminate R ].
    destruct (dispatch_class (provider crow) channel) as [c | ] eqn:P;
      [ | discriminate R ].
    destruct (ensures_construct c tenantId channel decrypted config w1 p R)
      as (Hc & Ht & Hch & _).
    destruct (dispatch_class_supported _ _ _ P) as (ND & S).
    subst c. auto.
  - destruct (getProvider_lookup_fails tenantId channel w) as (_ & H).
    rewrite (H trow T D C) in R. discriminate R.
Qed.

Lemma construct_succeeds c tenantId channel credentials config w :
  c <> DemoProvider ->
  JS.nullish credentials = false ->
  hasRequiredCredentials base credentials (required_keys c) = Return true ->
  client_accepts rt c credentials ->
  construct rt base c tenantId channel credentials config w
  = (Return {| class_of := c; this_tenantId := tenantId;
               this_channel := channel; this_credentials := credentials;
               this_config := default_object config |},
     add_events w [EvConstruct c credentials]).
Proof.
  intros ND N H A.
  destruct c; try congruence;
    unfold construct, new_TwilioSmsProvider, new_SESEmailProvider,
      ses_options, client_accepts, bind, get, emit, lift_outcome, ret, throw
      in *;
    cbn [required_keys] in H; rewrite H, N; cbn [negb];
    rewrite A; reflexivity.
Qed.

(** X5. The resolving path of [getProvider]: for a tenant that is not
    demo, a row whose blob decrypts to credentials the base class finds
    complete, whose config is empty or parses, and whose provider and
    channel pair dispatches to class c, the result is an adapter of
    class c holding exactly the decrypted credentials and the parsed
    config ({} when the row has none), given that the carrier library
    accepts the client. *)
Theorem getProvider_resolves tenantId channel w trow crow credentials config c :
  tenant_of w tenantId = Some trow ->
  JS.truthy (is_demo trow) = false ->
  credentials_of w tenantId channel = Some crow ->
  JS.truthy (credentials_json_encrypted crow) = true ->
  decrypted_json rt (encryption_key w) (credentials_json_encrypted crow)
  = Return credentials ->
  JS.nullish credentials = false ->
  config_value rt crow = Return config ->
  dispatch_class (provider crow) channel = Some c ->
  hasRequiredCredentials base credentials (required_keys c) = Return true ->
  client_accepts rt c credentials ->
  fst (getProvider rt base tenantId channel w)
  = Return {| class_of := c; this_tenantId := tenantId;
              this_channel := channel; this_credentials := credentials;
              this_config := default_object config |}
  /\ events_since w (snd (getProvider rt base tenantId channel w))
     = [EvQueryTenant tenantId; EvQueryCredentials tenantId channel;
        EvDecipher (credentials_json_encrypted crow);
        EvConstruct c credentials].
Proof.
  intros T D C B J N G P H A.
  rewrite (getProvider_configured rt base tenantId channel w trow crow T D C).
  rewrite decryptCredentials_spec, B, encryption_key_add_events, J, G, P.
  destruct (dispatch_class_supported _ _ _ P) as (ND & _).
  rewrite (construct_succeeds c tenantId channel credentials config _ ND N H A).
  rewrite !add_events_add_events. cbn [fst snd app].
  rewrite events_since_add_events. auto.
Qed.

(** X6. [getAllProviders] never throws. Its result holds, in the order
    sms, whatsapp, email, exactly the channels [getProvider] resolves
    for the tenant, each with the adapter [getProvider] returns for it;
    a channel whose resolution throws, for whatever reason, is left
    out. *)
Theorem getAllProviders_resolves tenantId w :
  fst (getAllProviders rt base tenantId w)
  = Return (resolved rt base tenantId w "sms"
            ++ resolved rt base tenantId w "whatsapp"
            ++ resolved rt base tenantId w "email")%list
  /\ extends w (snd (getAllProviders rt base tenantId w)).
Proof.
  destruct (getAllProviders_from_spec tenantId ["sms"; "whatsapp"; "email"]
              [] w w (same_inputs_refl w)) as (R & X).
  split; [ | exact X ].
  unfold getAllProviders. rewrite R. unfold resolved. cbn [fold_left].
  destruct (fst (getProvider rt base tenantId "sms" w)),
           (fst (getProvider rt base tenantId "whatsapp" w)),
           (fst (getProvider rt base tenantId "email" w)); reflexivity.
Qed.

(** X7. [getAllProviders] does not tell an unknown tenant from one with
    nothing configured: for a tenant id with no row it returns the
    empty object, the three 'Tenant not found' errors swallowed; for a
    demo tenant it returns a Demo adapter for each of the three
    channels. *)
Theorem getAllProviders_unknown_and_demo tenantId w :
  (tenant_of w tenantId = None ->
   fst (getAllProviders rt base tenantId w) = Return [])
  /\ (forall trow,
         tenant_of w tenantId = Some trow ->
         JS.truthy (is_demo trow) = true ->
         fst (getAllProviders rt base tenantId w)
         = Return
             (map (fun channel =>
                     (channel,
                      {| class_of := DemoProvider; this_tenantId := tenantId;
                         this_channel := channel; this_credentials := VObj [];
                         this_config := VObj [] |}))
                  ["sms"; "whatsapp"; "email"])).
Proof.
  destruct (getAllProviders_from_spec tenantId ["sms"; "whatsapp"; "email"]
              [] w w (same_inputs_refl w)) as (R & _).
  unfold getAllProviders. rewrite R. cbn [fold_left]. split.
  - intro T.
    assert (E : forall channel,
               fst (getProvider rt base tenantId channel w)
               = Throw (Error ("Tenant not found: " ++ tenantId))).
    { intro channel.
      destruct (getProvider_lookup_fails tenantId channel w) as (H & _).
      now rewrite (H T). }
    rewrite !E. reflexivity.
  - intros trow T D.
    assert (E : forall channel,
               fst (getProvider rt base tenantId channel w)
               = Return {| class_of := DemoProvider; this_tenantId := tenantId;
                           this_channel := channel; this_credentials := VObj [];
                           this_config := VObj [] |}).
    { intro channel. unfold tenant_of in T.
      unfold getProvider, select_tenant, bind, emit. simpl.
      rewrite T, D. reflexivity. }
    rewrite !E. reflexivity.
Qed.

End FactoryMore.

(* ================================================================== *)
(** ** verify, getStatus and verifyProvider *)
(* ================================================================== *)

Section AccountChecks.

Variable rt : Platform.
Variable base : MessagingProvider.
Variable api : AccountApi.

Lemma verify_shape this :
  total (verify rt api this)
        (fun r => check_failed r
                  \/ (JS.has_field r "success" = true
                      /\ JS.has_field r "error" = false)).
Proof.
  unfold verify, TwilioSmsProvider_verify, SESEmailProvider_verify,
    DemoProvider_verify, logError.
  destruct (class_of this).
  1-3: apply total_try_catch;
    [ repeat ensures_step; right; split; reflexivity
    | intro e; apply total_bind with (P := fun _ => True);
      [ apply total_emit | intros _ _ ];
      apply total_ret; left; split; [ reflexivity | eexists; reflexivity ] ].
  apply total_ret. right; split; reflexivity.
Qed.


(** X9. What the SES adapter's verify reports when the carrier
    answers: with a list of verified addresses, success is whether the
    list is not empty, verified_emails is the list and count its
    length; with no list in the answer, success is undefined (not
    false), verified_emails is the empty array and count is 0. *)
Theorem SESEmailProvider_verify_counts this w result :
  aws_ses_listVerifiedEmailAddresses api (ses_client_options this)
  = Return result ->
  JS.nullish result = false ->
  (forall items,
      JS.prop result "VerifiedEmailAddresses" = VArr items ->
      fst (SESEmailProvider_verify rt api this w)
      = Return (VObj [("success",
                       VBool (match items with [] => false | _ => true end));
                      ("verified_emails", VArr items);
                      ("count", VNum (Z.of_nat (List.length items)))]))
  /\ (JS.prop result "VerifiedEmailAddresses" = VUndefined ->
      fst (SESEmailProvider_verify rt api this w)
      = Return (VObj [("success", VUndefined);
                      ("verified_emails", VArr []);
                      ("count", VNum 0)])).
Proof.
  intros R N.
  unfold SESEmailProvider_verify, try_catch, logError, bind, get, emit,
    lift_outcome, ret, throw.
  rewrite R, N. split.
  - intros items A. rewrite A. cbn.
    destruct items; reflexivity.
  - intro A. rewrite A. reflexivity.
Qed.


(** X11. verifyProvider is getProvider followed by verify: when the
    adapter does not resolve it throws getProvider's error instead of
    answering {success: false}; once the adapter resolves it returns;
    for a demo tenant it answers success true after the tenant lookup
    alone, with no call to any carrier. *)
Theorem verifyProvider_resolution tenantId channel w :
  (forall e,
      fst (getProvider rt base tenantId channel w) = Throw e ->
      fst (verifyProvider rt base api tenantId channel w) = Throw e)
  /\ (forall p,
         fst (getProvider rt base tenantId channel w) = Return p ->
         exists r,
           fst (verifyProvider rt base api tenantId channel w) = Return r)
  /\ (forall trow,
         tenant_of w tenantId = Some trow ->
         JS.truthy (is_demo trow) = true ->
         fst (verifyProvider rt base api tenantId channel w)
         = Return (VObj [("success", VBool true);
                         ("message",
                          VStr "Demo provider - no credentials needed")])
         /\ carrier_calls
              (events_since w
                 (snd (verifyProvider rt base api tenantId channel w)))
            = 0%nat).
Proof.
  unfold verifyProvider, bind. split; [ | split ].
  - intros e E.
    destruct (getProvider rt base tenantId channel w) as [[p | e'] w1];
      simpl in E; [ discriminate | ]. inversion E; reflexivity.
  - intros p E.
    destruct (getProvider rt base tenantId channel w) as [[p' | e'] w1];
      simpl in E; [ | discriminate ].
    destruct (verify_shape p' w1) as (r & R & _). exists r; exact R.
  - intros trow T D. unfold tenant_of in T.
    assert (E : getProvider rt base tenantId channel w
                = (Return {| class_of := DemoProvider; this_tenantId := tenantId;
                             this_channel := channel; this_credentials := VObj [];
                             this_config := VObj [] |},
                   add_events w [EvQueryTenant tenantId;
                                 EvConstruct DemoProvider (VObj [])])).
    { unfold getProvider, select_tenant, bind, emit. simpl.
      rewrite T, D. unfold new_DemoProvider, bind, emit, ret, add_events. simpl.
      rewrite <- app_assoc. reflexivity. }
    rewrite E. cbn [fst snd verify class_of DemoProvider_verify ret].
    rewrite events_since_add_events. split; reflexivity.
Qed.

End AccountChecks.

(* ================================================================== *)
(** ** Carrier requests of a send *)
(* ================================================================== *)

Lemma carrier_calls_app evs evs' :
  carrier_calls (evs ++ evs') = (carrier_calls evs + carrier_calls evs')%nat.
Proof. unfold carrier_calls. now rewrite filter_app, length_app. Qed.

Lemma calls_quiet {A} (m : M A) n :
  (forall w, snd (m w) = w) -> calls_at_most n m.
Proof.
  intros H w. exists []. rewrite H, app_nil_r. split; [ reflexivity | ].
  unfold carrier_calls; simpl; lia.
Qed.

Lemma calls_ret {A} (a : A) n : calls_at_most n (ret a).
Proof. apply calls_quiet; reflexivity. Qed.

Lemma calls_throw {A} (e : exn) n : calls_at_most n (@throw A e).
Proof. apply calls_quiet; reflexivity. Qed.

Lemma calls_get v k n : calls_at_most n (get v k).
Proof.
  apply calls_quiet; intro w; unfold get; destruct (JS.nullish v); reflexivity.
Qed.

Lemma calls_destructure v k x n : calls_at_most n (destructure v k x).
Proof.
  apply calls_quiet; intro w; unfold destructure; destruct (JS.nullish v);
    reflexivity.
Qed.

Lemma calls_lift_outcome {A} (o : outcome A) n : calls_at_most n (lift_outcome o).
Proof. apply calls_quiet; intro w; destruct o; reflexivity. Qed.

Lemma calls_process_env name n : calls_at_most n (process_env name).
Proof. apply calls_quiet; reflexivity. Qed.

Lemma calls_Date_now n : calls_at_most n Date_now.
Proof. apply calls_quiet; reflexivity. Qed.

Lemma calls_emit_log line data n : calls_at_most n (emit (EvLog line data)).
Proof.
  intro w. exists [EvLog line data]. split; [ reflexivity | ].
  unfold carrier_calls; simpl; lia.
Qed.

Lemma calls_emit_carrier api payload :
  calls_at_most 1 (emit (EvCarrierCall api payload)).
Proof.
  intro w. exists [EvCarrierCall api payload]. split; [ reflexivity | ].
  unfold carrier_calls; simpl; lia.
Qed.

Lemma calls_bind {A B} a b (m : M A) (k : A -> M B) :
  calls_at_most a m -> (forall x, calls_at_most b (k x)) ->
  calls_at_most (a + b) (bind m k).
Proof.
  intros Hm Hk w. unfold bind. destruct (Hm w) as (evs1 & T1 & C1).
  destruct (m w) as [[x | e] w1]; cbn [fst snd] in *.
  - destruct (Hk x w1) as (evs2 & T2 & C2).
    exists (evs1 ++ evs2)%list. rewrite T2, T1, app_assoc, carrier_calls_app.
    split; [ reflexivity | lia ].
  - exists evs1. split; [ exact T1 | lia ].
Qed.

Lemma calls_try_catch {A} a b (body : M A) (handler : exn -> M A) :
  calls_at_most a body -> (forall e, calls_at_most b (handler e)) ->
  calls_at_most (a + b) (try_catch body handler).
Proof.
  intros Hb Hh w. unfold try_catch. destruct (Hb w) as (evs1 & T1 & C1).
  destruct (body w) as [[x | e] w1]; cbn [fst snd] in *.
  - exists evs1. split; [ exact T1 | lia ].
  - destruct (Hh e w1) as (evs2 & T2 & C2).
    exists (evs1 ++ evs2)%list. rewrite T2, T1, app_assoc, carrier_calls_app.
    split; [ reflexivity | lia ].
Qed.

(** One step of a count of carrier requests: a sequence is split where
    its one request may be. *)
Ltac calls_step :=
  match goal with
  | |- calls_at_most _ (if ?b then _ else _) => destruct b
  | |- calls_at_most _ (match ?x with _ => _ end) => destruct x
  | |- calls_at_most _ (ret _) => apply calls_ret
  | |- calls_at_most _ (throw _) => apply calls_throw
  | |- calls_at_most _ (get _ _) => apply calls_get
  | |- calls_at_most _ (destructure _ _ _) => apply calls_destructure
  | |- calls_at_most _ (lift_outcome _) => apply calls_lift_outcome
  | |- calls_at_most _ (process_env _) => apply calls_process_env
  | |- calls_at_most _ Date_now => apply calls_Date_now
  | |- calls_at_most _ (emit (EvLog _ _)) => apply calls_emit_log
  | |- calls_at_most 1 (emit (EvCarrierCall _ _)) => apply calls_emit_carrier
  | |- calls_at_most 0 (bind _ _) => apply (calls_bind 0 0); [ | intros ]
  | |- calls_at_most 0 (try_catch _ _) =>
      apply (calls_try_catch 0 0); [ | intros ]
  | |- calls_at_most 1 (try_catch _ _) =>
      apply (calls_try_catch 1 0); [ | intros ]
  | |- calls_at_most 1 (bind _ _) =>
      first [ apply (calls_bind 0 1); [ solve [ repeat calls_step ] | intros ]
            | apply (calls_bind 1 0); [ | intros ] ]
  end.

Section SendCalls.

Variable rt : Platform.

Lemma TwilioSmsProvider_send_calls this message :
  calls_at_most 1 (TwilioSmsProvider_send rt this message).
Proof.
  unfold TwilioSmsProvider_send, client_messages_create, logError, console_log.
  repeat calls_step.
Qed.

Lemma TwilioWhatsAppProvider_send_calls this message :
  calls_at_most 1 (TwilioWhatsAppProvider_send rt this message).
Proof.
  unfold TwilioWhatsAppProvider_send, client_messages_create, logError.
  repeat calls_step.
Qed.

Lemma SESEmailProvider_send_calls this message :
  calls_at_most 1 (SESEmailProvider_send rt this message).
Proof.
  unfold SESEmailProvider_send, ses_sendEmail, logError.
  repeat calls_step.
Qed.

Lemma DemoProvider_send_calls this message :
  calls_at_most 0 (DemoProvider_send rt this message).
Proof.
  unfold DemoProvider_send, generateDemoMessageId, console_log.
  repeat calls_step.
Qed.

(** X12. One call of send makes at most one request to the carrier,
    whatever the message and whatever the carrier answers: no adapter
    retries. The Demo adapter makes none. *)
Theorem send_at_most_one_carrier_call this message w :
  (carrier_calls (events_since w (snd (send rt this message w))) <= 1)%nat
  /\ (class_of this = DemoProvider ->
      carrier_calls (events_since w (snd (send rt this message w))) = 0%nat).
Proof.
  assert (H : forall n (m : M value),
             calls_at_most n m ->
             (carrier_calls (events_since w (snd (m w))) <= n)%nat).
  { intros n m C. destruct (C w) as (evs & T & L).
    now rewrite (events_since_app _ _ _ T). }
  unfold send. split.
  - destruct (class_of this); apply H.
    + apply TwilioSmsProvider_send_calls.
    + apply TwilioWhatsAppProvider_send_calls.
    + apply SESEmailProvider_send_calls.
    + intro w'. destruct (DemoProvider_send_calls this message w')
        as (evs & T & L). exists evs. split; [ exact T | lia ].
  - intros ->.
    pose proof (H 0%nat _ (DemoProvider_send_calls this message)). lia.
Qed.

End SendCalls.

(* ================================================================== *)
(** ** What each send hands to its carrier *)
(* ================================================================== *)

Ltac run_send :=
  repeat (split_scrutinee;
          cbn [negb fst snd JS.set_field String.eqb Ascii.eqb Bool.eqb] in * );
  try discriminate; try congruence;
  unfold events_since; cbn [trace fst snd];
  rewrite <- ?app_assoc, ?skipn_app, ?skipn_all, ?Nat.sub_diag.

Section SendPayloads.

Variable rt : Platform.

(** X13. Once sender and recipient pass validation, the Twilio SMS
    adapter calls the carrier once with {to, body} plus exactly one
    sender field: messagingServiceSid when the tenant's config or the
    environment supplies one (the config first), the from-number (the
    message's override before the tenant's number) only otherwise. The
    result is success with the carrier's sid, or failure with the
    carrier's error message. *)
Theorem TwilioSmsProvider_send_payload this message w :
  JS.nullish message = false ->
  JS.nullish (this_config this) = false ->
  JS.truthy (JS.or (JS.prop message "from_number")
                   (JS.prop (this_config this) "phone_number")) = true ->
  JS.truthy (JS.prop message "phone_number") = true ->
  fst (TwilioSmsProvider_send rt this message w)
  = Return (send_result "twilio" "sid"
              (twilio_messages_create rt
                 (JS.prop (this_credentials this) "accountSid")
                 (JS.prop (this_credentials this) "authToken")
                 (sms_payload this message w)))
  /\ filter is_carrier_call
       (events_since w (snd (TwilioSmsProvider_send rt this message w)))
     = [EvCarrierCall "twilio.messages.create" (sms_payload this message w)].
Proof.
  intros Nm Nc Tf Tp.
  unfold sms_payload, messaging_service_sid, send_result.
  unfold TwilioSmsProvider_send, try_catch, destructure,
    client_messages_create, logError, console_log, bind, get, process_env,
    lift_outcome, emit, ret, throw, JS.or in *.
  rewrite Nm, Nc, Tp. cbn [negb].
  destruct (JS.truthy (JS.prop message "from_number")) eqn:Ff;
    cbn [negb] in *; cbv iota in *; rewrite ?Ff, ?Tf; cbn [negb];
    run_send; split; reflexivity.
Qed.


(** X15. The SES adapter requires to_email, subject, html_body and
    from_email: a message lacking one of them is answered 'Missing
    required email fields: ...' with no carrier call. A complete
    message is sent once, from from_email to the single address
    to_email, under the tenant's configuration set or
    'engageninja-email-events', with a text part only when text_body is
    given; the result carries the carrier's MessageId or its error. *)
Theorem SESEmailProvider_send_spec this message w :
  JS.nullish message = false ->
  (email_complete message = false ->
   SESEmailProvider_send rt this message w
   = (Return (VObj [("success", VBool false);
                    ("error", VStr
                       "Missing required email fields: to_email, subject, html_body, from_email");
                    ("provider", VStr "aws_ses")]),
      add_events w
        [EvLog
           "Email send: Missing required email fields: to_email, subject, html_body, from_email"
           (VObj [("to_email", JS.prop message "to_email")])]))
  /\ (email_complete message = true ->
      JS.nullish (this_config this) = false ->
      exists params,
        fst (SESEmailProvider_send rt this message w)
        = Return (send_result "aws_ses" "MessageId"
                    (aws_ses_sendEmail rt
                       (VObj [("region", JS.prop (this_credentials this) "region");
                              ("accessKeyId",
                               JS.prop (this_credentials this) "accessKeyId");
                              ("secretAccessKey",
                               JS.prop (this_credentials this) "secretAccessKey")])
                       params))
        /\ filter is_carrier_call
             (events_since w (snd (SESEmailProvider_send rt this message w)))
           = [EvCarrierCall "ses.sendEmail" params]
        /\ JS.prop params "Source" = JS.prop message "from_email"
        /\ JS.prop (JS.prop params "Destination") "ToAddresses"
           = VArr [JS.prop message "to_email"]
        /\ JS.prop params "ConfigurationSetName"
           = JS.or (JS.prop (this_config this) "configuration_set")
                   (VStr "engageninja-email-events")
        /\ JS.prop (JS.prop (JS.prop params "Message") "Body") "Text"
           = if JS.truthy (JS.prop message "text_body")
             then utf8 (JS.prop message "text_body")
             else VUndefined).
Proof.
  intro Nm. unfold email_complete, send_result. split.
  - intro C.
    unfold SESEmailProvider_send, try_catch, destructure, logError, bind, get,
      emit, ret, throw.
    rewrite Nm. cbv beta iota.
    replace (negb (JS.truthy (JS.prop message "to_email"))
             || negb (JS.truthy (JS.prop message "subject"))
             || negb (JS.truthy (JS.prop message "html_body"))
             || negb (JS.truthy (JS.prop message "from_email")))
      with true
      by (destruct (JS.truthy (JS.prop message "to_email")),
                   (JS.truthy (JS.prop message "subject")),
                   (JS.truthy (JS.prop message "html_body")),
                   (JS.truthy (JS.prop message "from_email"));
          simpl in *; congruence).
    reflexivity.
  - intros C Nc.
    apply andb_prop in C. destruct C as (C & T4).
    apply andb_prop in C. destruct C as (C & T3).
    apply andb_prop in C. destruct C as (T1 & T2).
    eexists.
    unfold SESEmailProvider_send, try_catch, destructure, ses_sendEmail,
      logError, bind, get, lift_outcome, emit, ret, throw.
    rewrite Nm, Nc, T1, T2, T3, T4. cbn [negb orb]. cbv beta iota.
    match goal with
    | |- context [aws_ses_sendEmail rt ?o ?params] =>
        destruct (aws_ses_sendEmail rt o params) as [result | e] eqn:R
    end;
      [ destruct (JS.nullish result) eqn:Nr | ];
      cbn [fst snd]; unfold events_since; cbn [trace];
      rewrite <- ?app_assoc, ?skipn_app, ?skipn_all, ?Nat.sub_diag;
      cbn [JS.nullish]; rewrite ?Nr;
      repeat split; try reflexivity; rewrite R, ?Nr; reflexivity.
Qed.

End SendPayloads.

(* ================================================================== *)
(** ** Callbacks that parse *)
(* ================================================================== *)

Section WebhookMore.

Variable rt : Platform.
Variable base : MessagingProvider.

Lemma verifyWebhookSignature_run this body signature w :
  fst (verifyWebhookSignature rt this body signature w)
  = Return (signature_accepted rt this body signature)
  /\ (signature_accepted rt this body signature = true ->
      snd (verifyWebhookSignature rt this body signature w) = w).
Proof.
  unfold verifyWebhookSignature, signature_accepted, try_catch, console_log,
    bind, get, emit, lift_outcome, ret, throw.
  destruct (JS.nullish (this_config this));
    [ split; [ reflexivity | discriminate ] | ].
  destruct (JS.nullish (this_credentials this));
    [ split; [ reflexivity | discriminate ] | ].
  cbn [orb].
  destruct (twilio_validateRequest rt _ _ _ _) as [b | e];
    split; try reflexivity; discriminate.
Qed.

(** X16. verifyWebhookSignature never throws and fails closed: it
    answers true only when twilio.validateRequest, given the stored
    auth token, the signature, the configured webhook_url (the empty
    string when none is configured) and the body, answers true; a
    throw of the library, a null config or null credentials all give
    false. *)
Theorem verifyWebhookSignature_fails_closed this body signature w :
  fst (verifyWebhookSignature rt this body signature w)
  = Return
      (if JS.nullish (this_config this) || JS.nullish (this_credentials this)
       then false
       else match twilio_validateRequest rt
                    (JS.prop (this_credentials this) "authToken") signature
                    (JS.or (JS.prop (this_config this) "webhook_url")
                           (VStr ""))
                    body with
            | Return b => b
            | Throw _ => false
            end).
Proof. apply verifyWebhookSignature_run. Qed.

Lemma TwilioSmsProvider_parseWebhook_run this body signature w status :
  signature_accepted rt this body signature = true ->
  JS.truthy (get_opt body "MessageSid") = true ->
  normalizeStatus base (get_opt body "MessageStatus") = Return status ->
  TwilioSmsProvider_parseWebhook rt base this body signature w
  = (Return (VObj [("provider_message_id", get_opt body "MessageSid");
                   ("status", status);
                   ("timestamp", VDate (Some (clock w)));
                   ("raw", body)]), w).
Proof.
  intros A I S.
  destruct (verifyWebhookSignature_run this body signature w) as (V & W).
  specialize (W A). rewrite A in V.
  assert (N : JS.nullish body = false).
  { unfold get_opt in I. destruct (JS.nullish body); [ discriminate | auto ]. }
  unfold get_opt in *. rewrite N in *.
  unfold TwilioSmsProvider_parseWebhook, try_catch. unfold bind at 1.
  destruct (verifyWebhookSignature rt this body signature w) as [o w1].
  cbn [fst snd] in V, W. subst o w1. cbn [negb].
  rewrite !bind_get by exact N. rewrite I. cbn [negb].
  unfold bind, lift_outcome, Date_now, ret. rewrite S. reflexivity.
Qed.

(** X17. A callback the signature check accepts, with a truthy
    MessageSid, is parsed by the Twilio SMS and WhatsApp adapters into
    the MessageSid as provider_message_id, normalizeStatus of
    MessageStatus as status, the time of the call as timestamp and the
    body itself as raw; nothing is logged. *)
Theorem parseWebhook_authenticated this body signature w status :
  twilio_class (class_of this) = true ->
  signature_accepted rt this body signature = true ->
  JS.truthy (get_opt body "MessageSid") = true ->
  normalizeStatus base (get_opt body "MessageStatus") = Return status ->
  parseWebhook rt base this body signature w
  = (Return (VObj [("provider_message_id", get_opt body "MessageSid");
                   ("status", status);
                   ("timestamp", VDate (Some (clock w)));
                   ("raw", body)]), w).
Proof.
  intros C A I S.
  pose proof (TwilioSmsProvider_parseWebhook_run this body signature w status
                A I S) as R.
  unfold parseWebhook. destruct (class_of this); try discriminate C.
  - exact R.
  - rewrite TwilioWhatsAppProvider_parseWebhook_parent. exact R.
Qed.

(** X18. The WhatsApp adapter's parseWebhook adds nothing to the SMS
    adapter's: for an instance of the WhatsApp class it returns the
    parent's result and leaves the same trace, on every body and
    signature. *)
Theorem parseWebhook_whatsapp_as_sms this body signature w :
  class_of this = TwilioWhatsAppProvider ->
  parseWebhook rt base this body signature w
  = TwilioSmsProvider_parseWebhook rt base this body signature w.
Proof.
  intro C. unfold parseWebhook. rewrite C.
  apply TwilioWhatsAppProvider_parseWebhook_parent.
Qed.

(** X19. The Demo adapter parses a callback with a truthy
    provider_message_id whatever the signature: status is
    normalizeStatus of body.status, and timestamp is new Date of
    body.timestamp when that is truthy and the time of the call
    otherwise. Nothing is logged. *)
Theorem DemoProvider_parseWebhook_parsed this body signature w status :
  JS.truthy (get_opt body "provider_message_id") = true ->
  normalizeStatus base (get_opt body "status") = Return status ->
  DemoProvider_parseWebhook rt base this body signature w
  = (Return (VObj [("provider_message_id", get_opt body "provider_message_id");
                   ("status", status);
                   ("timestamp",
                    new_Date rt (if JS.truthy (get_opt body "timestamp")
                                 then get_opt body "timestamp"
                                 else VDate (Some (clock w))));
                   ("demo", VBool true)]), w).
Proof.
  intros I S.
  assert (N : JS.nullish body = false).
  { unfold get_opt in I. destruct (JS.nullish body); [ discriminate | auto ]. }
  unfold get_opt in *. rewrite N in *.
  unfold DemoProvider_parseWebhook, try_catch.
  rewrite bind_get by exact N. rewrite I. cbn [negb].
  rewrite !bind_get by exact N.
  unfold bind at 1. rewrite S. unfold lift_outcome at 1, ret at 1.
  cbv beta iota. rewrite bind_get by exact N.
  destruct (JS.truthy (JS.prop body "timestamp")); reflexivity.
Qed.

Lemma ses_timestamp_run event w :
  JS.nullish event = false ->
  ses_timestamp rt event w
  = (Return (ses_event_timestamp rt event (clock w)), w).
Proof.
  intro N. unfold ses_timestamp, ses_event_timestamp, JS.or.
  assert (G : forall k, get_opt event k = JS.prop event k)
    by (intro k; unfold get_opt; now rewrite N).
  rewrite !G. rewrite bind_get by exact N.
  destruct (JS.truthy (get_opt (JS.prop event "delivery") "timestamp"));
    [ reflexivity | ].
  rewrite bind_get by exact N.
  destruct (JS.truthy (get_opt (JS.prop event "bounce") "timestamp"));
    [ reflexivity | ].
  rewrite bind_get by exact N.
  destruct (JS.truthy (get_opt (JS.prop event "complaint") "timestamp"));
    reflexivity.
Qed.

(** X20. An SES event with a mail message id is parsed whatever the
    signature argument, which the adapter never reads. Its timestamp
    is new Date of the event's delivery timestamp, else its bounce
    timestamp, else its complaint timestamp, else the ISO string of
    the time of the call; status is normalizeStatus of the mapped
    event type, and a throw of normalizeStatus gives the error
    result. *)
Theorem SESEmailProvider_parseWebhook_parsed this body signature w event :
  ses_event_of rt body = Return event ->
  JS.truthy (get_opt (get_opt event "mail") "messageId") = true ->
  fst (SESEmailProvider_parseWebhook rt base this body signature w)
  = Return
      match normalizeStatus base
              (VStr (ses_event_status (get_opt event "eventType"))) with
      | Return status =>
          VObj [("provider_message_id",
                 get_opt (get_opt event "mail") "messageId");
                ("status", status);
                ("timestamp",
                 new_Date rt (ses_event_timestamp rt event (clock w)));
                ("event_type", get_opt event "eventType");
                ("raw", event)]
      | Throw e =>
          VObj [("error", VStr (error_message e)); ("status", VStr "unknown")]
      end.
Proof.
  intros Ev I.
  assert (N : JS.nullish event = false).
  { destruct event; try reflexivity; discriminate I. }
  assert (G : forall k, get_opt event k = JS.prop event k)
    by (intro k; unfold get_opt; now rewrite N).
  rewrite !G in *.
  assert (Nm : JS.nullish (JS.prop event "mail") = false).
  { unfold get_opt in I.
    destruct (JS.nullish (JS.prop event "mail")); [ discriminate | auto ]. }
  assert (Tm : JS.truthy (JS.prop event "mail") = true).
  { destruct (JS.prop event "mail"); try reflexivity; try discriminate Nm;
      discriminate I. }
  unfold get_opt in I |- *. rewrite Nm in *.
  unfold SESEmailProvider_parseWebhook, try_catch. unfold bind at 1.
  rewrite ses_unwrap_event, Ev.
  rewrite bind_get by exact N. rewrite Tm. cbn [negb].
  unfold bind at 1. rewrite bind_get by exact Nm. unfold ret at 1.
  rewrite I. cbn [negb].
  rewrite bind_get by exact Nm. rewrite bind_get by exact N.
  unfold bind at 1. rewrite (ses_timestamp_run event w N).
  unfold bind, lift_outcome, logError, emit, ret, throw.
  destruct (normalizeStatus base _); reflexivity.
Qed.

End WebhookMore.

(* ================================================================== *)
(** ** Sends that return, and the Demo round trip *)
(* ================================================================== *)

Section SendMore.

Variable rt : Platform.
Variable base : MessagingProvider.


(** X22. For every message other than undefined and null, send returns
    for all four adapters, whatever the carrier does: the result is
    either the success shape or {success: false, error, provider}. The
    Demo adapter returns one of the two on every input, undefined and
    null included. *)
Theorem send_returns_a_result this message w :
  (JS.nullish message = false ->
   exists r,
     fst (send rt this message w) = Return r
     /\ (send_success (class_of this) r \/ send_failure (class_of this) r))
  /\ (exists r,
         fst (DemoProvider_send rt this message w) = Return r
         /\ (send_success DemoProvider r \/ send_failure DemoProvider r)).
Proof.
  split.
  - intro N. exact (send_returns_for_present_message rt this message N w).
  - exact (DemoProvider_send_returns rt this message w).
Qed.

End SendMore.

(* ================================================================== *)
(** ** The further properties on sample runs *)
(* ================================================================== *)

(** X1 at a tenant id the sample database does not hold. *)
Lemma getProvider_unknown_tenant_witness :
  fst (getProvider Sample.platform spec_MessagingProvider "Z" "sms"
         Sample.db_world)
  = Throw (Error "Tenant not found: Z")
  /\ events_since Sample.db_world
       (snd (getProvider Sample.platform spec_MessagingProvider "Z" "sms"
               Sample.db_world))
     = [EvQueryTenant "Z"].
Proof.
  exact (getProvider_unknown_tenant Sample.platform spec_MessagingProvider
           "Z" "sms" Sample.db_world eq_refl).
Defined.

(** X2 at tenant U, which has an email row only. *)
Lemma getProvider_channel_not_configured_witness :
  fst (getProvider Sample.platform spec_MessagingProvider "U" "sms"
         Sample.db_world)
  = Throw (Error "No provider configured for tenant U, channel sms")
  /\ events_since Sample.db_world
       (snd (getProvider Sample.platform spec_MessagingProvider "U" "sms"
               Sample.db_world))
     = [EvQueryTenant "U"; EvQueryCredentials "U" "sms"].
Proof.
  exact (getProvider_channel_not_configured Sample.platform
           spec_MessagingProvider "U" "sms" Sample.db_world
           {| tenant_id := "U"; is_demo := VNum 0 |} eq_refl eq_refl eq_refl).
Defined.

(** X3 at tenant V: aws_ses on sms, and a carrier the factory does not
    know on email. *)
Lemma getProvider_unsupported_pair_witness :
  (fst (getProvider Sample.platform spec_MessagingProvider "V" "sms"
          Sample.db_world_v)
   = Throw (Error "AWS SES does not support channel: sms")
   /\ existsb is_construct
        (events_since Sample.db_world_v
           (snd (getProvider Sample.platform spec_MessagingProvider "V" "sms"
                   Sample.db_world_v)))
      = false)
  /\ fst (getProvider Sample.platform spec_MessagingProvider "V" "email"
            Sample.db_world_v)
     = Throw (Error "Unknown provider: sendgrid").
Proof.
  split.
  - destruct (getProvider_unsupported_pair Sample.platform
                spec_MessagingProvider "V" "sms" Sample.db_world_v
                {| tenant_id := "V"; is_demo := VNum 0 |}
                {| cred_tenant_id := "V"; cred_channel := "sms";
                   provider := "aws_ses";
                   credentials_json_encrypted := VNull;
                   provider_config_json := VNull |}
                eq_refl eq_refl eq_refl eq_refl) as (e & E & C & U).
    rewrite E, (U (or_introl eq_refl) (or_introl eq_refl)).
    split; [ reflexivity | exact C ].
  - destruct (getProvider_unsupported_pair Sample.platform
                spec_MessagingProvider "V" "email" Sample.db_world_v
                {| tenant_id := "V"; is_demo := VNum 0 |}
                {| cred_tenant_id := "V"; cred_channel := "email";
                   provider := "sendgrid";
                   credentials_json_encrypted := VNull;
                   provider_config_json := VNull |}
                eq_refl eq_refl eq_refl eq_refl) as (e & E & _ & U).
    rewrite E, (U (or_introl eq_refl) (or_introl eq_refl)). reflexivity.
Defined.

(** X4 at tenant T's sms adapter. *)
Lemma getProvider_adapter_supports_channel_witness :
  exists p,
    fst (getProvider Sample.platform spec_MessagingProvider "T" "sms"
           Sample.db_world) = Return p
    /\ this_tenantId p = "T"
    /\ this_channel p = "sms"
    /\ In "sms" (getSupportedChannels (class_of p)).
Proof.
  exists Sample.twilio_sms.
  destruct (getProvider_adapter_supports_channel Sample.platform
              spec_MessagingProvider "T" "sms" Sample.db_world
              {| tenant_id := "T"; is_demo := VNum 0 |} Sample.twilio_sms
              eq_refl eq_refl getProvider_tenant_T_sms) as (A & B & _ & D).
  split; [ exact getProvider_tenant_T_sms | ].
  split; [ exact A | ]. split; [ exact B | exact D ].
Defined.

(** X5 at tenant T's sms row: the stored blob decrypts, and the config
    holds the sender number. *)
Lemma getProvider_resolves_witness :
  fst (getProvider Sample.platform spec_MessagingProvider "T" "sms"
         Sample.db_world)
  = Return Sample.twilio_sms
  /\ events_since Sample.db_world
       (snd (getProvider Sample.platform spec_MessagingProvider "T" "sms"
               Sample.db_world))
     = [EvQueryTenant "T"; EvQueryCredentials "T" "sms";
        EvDecipher (VStr Sample.twilio_blob);
        EvConstruct TwilioSmsProvider
          (VObj [("accountSid", VStr "AC123"); ("authToken", VStr "secret")])].
Proof.
  exact (getProvider_resolves Sample.platform spec_MessagingProvider
           "T" "sms" Sample.db_world
           {| tenant_id := "T"; is_demo := VNum 0 |}
           {| cred_tenant_id := "T"; cred_channel := "sms";
              provider := "twilio";
              credentials_json_encrypted := VStr Sample.twilio_blob;
              provider_config_json := VStr Sample.sms_config_json |}
           (VObj [("accountSid", VStr "AC123"); ("authToken", VStr "secret")])
           (VObj [("phone_number", VStr "+15550001111")])
           TwilioSmsProvider
           eq_refl eq_refl eq_refl eq_refl eq_refl eq_refl eq_refl eq_refl
           eq_refl eq_refl).
Defined.

(** X7 at the unknown tenant Z and at the demo tenant D. *)
Lemma getAllProviders_unknown_and_demo_witness :
  fst (getAllProviders Sample.platform spec_MessagingProvider "Z"
         Sample.db_world)
  = Return []
  /\ option_map (map fst)
       (match fst (getAllProviders Sample.platform spec_MessagingProvider "D"
                     Sample.db_world) with
        | Return providers => Some providers
        | Throw _ => None
        end)
     = Some ["sms"; "whatsapp"; "email"].
Proof.
  split.
  - exact (proj1 (getAllProviders_unknown_and_demo Sample.platform
                    spec_MessagingProvider "Z" Sample.db_world) eq_refl).
  - rewrite (proj2 (getAllProviders_unknown_and_demo Sample.platform
                      spec_MessagingProvider "D" Sample.db_world)
               {| tenant_id := "D"; is_demo := VNum 1 |} eq_refl eq_refl).
    reflexivity.
Defined.

(** X9 with two verified addresses. *)
Lemma SESEmailProvider_verify_counts_witness :
  fst (SESEmailProvider_verify Sample.platform Sample.account_api
         Sample.ses_email Sample.world0)
  = Return (VObj [("success", VBool true);
                  ("verified_emails",
                   VArr [VStr "team@example.org"; VStr "ops@example.org"]);
                  ("count", VNum 2)]).
Proof.
  exact (proj1 (SESEmailProvider_verify_counts Sample.platform
                  Sample.account_api Sample.ses_email Sample.world0
                  (VObj [("VerifiedEmailAddresses",
                          VArr [VStr "team@example.org";
                                VStr "ops@example.org"])])
                  eq_refl eq_refl)
           [VStr "team@example.org"; VStr "ops@example.org"] eq_refl).
Defined.

(** X11 at tenant T's sms channel, whose account the sample service
    knows, and at the unknown tenant Z. *)
Lemma verifyProvider_resolution_witness :
  fst (verifyProvider Sample.platform spec_MessagingProvider
         Sample.account_api "Z" "sms" Sample.db_world)
  = Throw (Error "Tenant not found: Z")
  /\ exists r,
       fst (verifyProvider Sample.platform spec_MessagingProvider
              Sample.account_api "T" "sms" Sample.db_world) = Return r.
Proof.
  split.
  - exact (proj1 (verifyProvider_resolution Sample.platform
                    spec_MessagingProvider Sample.account_api "Z" "sms"
                    Sample.db_world) _ eq_refl).
  - exact (proj1 (proj2 (verifyProvider_resolution Sample.platform
                           spec_MessagingProvider Sample.account_api "T" "sms"
                           Sample.db_world))
             Sample.twilio_sms getProvider_tenant_T_sms).
Defined.

(** X13 at the spec's scenario: message m1 through tenant T's number. *)
Lemma TwilioSmsProvider_send_payload_witness :
  fst (TwilioSmsProvider_send Sample.platform Sample.twilio_sms Sample.m1
         Sample.world0)
  = Return (VObj [("success", VBool true);
                  ("provider_message_id", VStr "CM123");
                  ("status", VStr "sent"); ("provider", VStr "twilio")])
  /\ filter is_carrier_call
       (events_since Sample.world0
          (snd (TwilioSmsProvider_send Sample.platform Sample.twilio_sms
                  Sample.m1 Sample.world0)))
     = [EvCarrierCall "twilio.messages.create"
          (VObj [("to", VStr "+15550002222"); ("body", VStr "hi");
                 ("from", VStr "+15550001111")])].
Proof.
  exact (TwilioSmsProvider_send_payload Sample.platform Sample.twilio_sms
           Sample.m1 Sample.world0 eq_refl eq_refl eq_refl eq_refl).
Defined.


(** X15 at a message with a recipient only, and at the complete
    message e1. *)
Lemma SESEmailProvider_send_spec_witness :
  fst (SESEmailProvider_send Sample.platform Sample.ses_email
         (VObj [("to_email", VStr "ann@example.org")]) Sample.world0)
  = Return (VObj [("success", VBool false);
                  ("error", VStr
                     "Missing required email fields: to_email, subject, html_body, from_email");
                  ("provider", VStr "aws_ses")])
  /\ fst (SESEmailProvider_send Sample.platform Sample.ses_email Sample.e1
            Sample.world0)
     = Return (VObj [("success", VBool true);
                     ("provider_message_id", VStr "E1");
                     ("status", VStr "sent"); ("provider", VStr "aws_ses")]).
Proof.
  split.
  - exact (f_equal fst
             (proj1 (SESEmailProvider_send_spec Sample.platform
                       Sample.ses_email
                       (VObj [("to_email", VStr "ann@example.org")])
                       Sample.world0 eq_refl) eq_refl)).
  - destruct (proj2 (SESEmailProvider_send_spec Sample.platform
                       Sample.ses_email Sample.e1 Sample.world0 eq_refl)
                eq_refl eq_refl) as (params & R & _).
    exact R.
Defined.

(** X17 at a delivered callback with the good signature, received by
    the WhatsApp adapter. *)
Lemma parseWebhook_authenticated_witness :
  parseWebhook Sample.platform spec_MessagingProvider Sample.twilio_whatsapp
    Sample.delivered_callback (VStr Sample.good_signature) Sample.world0
  = (Return (VObj [("provider_message_id", VStr "CM123");
                   ("status", VStr "delivered");
                   ("timestamp", VDate (Some 1703081234567%Z));
                   ("raw", Sample.delivered_callback)]), Sample.world0).
Proof.
  exact (parseWebhook_authenticated Sample.platform spec_MessagingProvider
           Sample.twilio_whatsapp Sample.delivered_callback
           (VStr Sample.good_signature) Sample.world0 (VStr "delivered")
           eq_refl eq_refl eq_refl eq_refl).
Defined.

(** X18 at a forged signature. *)
Lemma parseWebhook_whatsapp_as_sms_witness :
  parseWebhook Sample.platform spec_MessagingProvider Sample.twilio_whatsapp
    Sample.delivered_callback (VStr "forged") Sample.world0
  = TwilioSmsProvider_parseWebhook Sample.platform spec_MessagingProvider
      Sample.twilio_whatsapp Sample.delivered_callback (VStr "forged")
      Sample.world0.
Proof.
  exact (parseWebhook_whatsapp_as_sms Sample.platform spec_MessagingProvider
           Sample.twilio_whatsapp Sample.delivered_callback (VStr "forged")
           Sample.world0 eq_refl).
Defined.

(** X19 at a callback that carries its own timestamp, with no
    signature at all. *)
Lemma DemoProvider_parseWebhook_parsed_witness :
  DemoProvider_parseWebhook Sample.platform spec_MessagingProvider
    Sample.demo_sms Sample.demo_callback_timed VUndefined Sample.world0
  = (Return (VObj [("provider_message_id", VStr "demo-m2-1703081234567");
                   ("status", VStr "delivered");
                   ("timestamp", VDate (Some 1703081239000%Z));
                   ("demo", VBool true)]), Sample.world0).
Proof.
  exact (DemoProvider_parseWebhook_parsed Sample.platform
           spec_MessagingProvider Sample.demo_sms Sample.demo_callback_timed
           VUndefined Sample.world0 (VStr "delivered") eq_refl eq_refl).
Defined.

(** X20 at the spec's Bounce for message E1, which carries no
    timestamp, received at 2024-01-01T00:00:00.000Z. *)
Lemma SESEmailProvider_parseWebhook_parsed_witness :
  fst (SESEmailProvider_parseWebhook Sample.platform spec_MessagingProvider
         Sample.ses_email Sample.bounce_notification VUndefined
         (Sample.at_time 1704067200000 Sample.world0))
  = Return (VObj [("provider_message_id", VStr "E1");
                  ("status", VStr "failed");
                  ("timestamp", VDate (Some 1704067200000%Z));
                  ("event_type", VStr "Bounce");
                  ("raw", VObj [("eventType", VStr "Bounce");
                                ("mail", VObj [("messageId", VStr "E1")])])]).
Proof.
  exact (SESEmailProvider_parseWebhook_parsed Sample.platform
           spec_MessagingProvider Sample.ses_email Sample.bounce_notification
           VUndefined (Sample.at_time 1704067200000 Sample.world0)
           (VObj [("eventType", VStr "Bounce");
                  ("mail", VObj [("messageId", VStr "E1")])])
           eq_refl eq_refl).
Defined.

